(** * Note keeper: the client state machine of [notes_frontend/src/App.js]

    A shallow embedding of the [App] component: its React state, its event
    handlers, the requests they send to the remote notes store and the
    debounced search effect, followed by the properties of the
    specification that concern them. *)

From Stdlib Require Import String Ascii List Bool Arith NArith Lia.
From Stdlib Require Import Permutation Sorted.
Import ListNotations.

Local Open Scope string_scope.
Local Open Scope list_scope.

(** ** JavaScript strings

    Strings are sequences of code units; the development keeps to the
    Latin-1 range, which [ascii] covers. *)
Module JsString.

(** [WhiteSpace] and [LineTerminator] code points of ECMAScript below
    256: TAB, LF, VT, FF, CR, SP and NBSP. *)
Definition is_ws (c : ascii) : bool :=
  match nat_of_ascii c with
  | 9 | 10 | 11 | 12 | 13 | 32 | 160 => true
  | _ => false
  end.

Definition is_empty (s : string) : bool :=
  match s with
  | EmptyString => true
  | String _ _ => false
  end.

Fixpoint trimStart (s : string) : string :=
  match s with
  | EmptyString => EmptyString
  | String c s' => if is_ws c then trimStart s' else s
  end.

Fixpoint trimEnd (s : string) : string :=
  match s with
  | EmptyString => EmptyString
  | String c s' =>
      let t := trimEnd s' in
      if is_ws c && is_empty t then EmptyString else String c t
  end.

(** [String.prototype.trim]. *)
Definition trim (s : string) : string := trimEnd (trimStart s).

(** Every code unit is white space (the empty string included). *)
Fixpoint all_ws (s : string) : bool :=
  match s with
  | EmptyString => true
  | String c s' => is_ws c && all_ws s'
  end.

(** ASCII case folding, as the store applies it for [ilike]. *)
Definition lower_char (c : ascii) : ascii :=
  let n := nat_of_ascii c in
  if ((65 <=? n)%nat && (n <=? 90)%nat)%bool then ascii_of_nat (n + 32) else c.

Fixpoint toLowerCase (s : string) : string :=
  match s with
  | EmptyString => EmptyString
  | String c s' => String (lower_char c) (toLowerCase s')
  end.

(** [String.prototype.includes]: [t] occurs in [s] as a contiguous
    run. *)
Fixpoint includes (t s : string) : bool :=
  prefix t s ||
  match s with
  | EmptyString => false
  | String _ s' => includes t s'
  end.

(** Case-insensitive containment. *)
Definition includes_ci (t s : string) : bool :=
  includes (toLowerCase t) (toLowerCase s).

(** [x || ''] on a string operand: the empty string is the only falsy
    string. *)
Definition or_empty (x : string) : string :=
  if is_empty x then "" else x.

End JsString.

Import JsString.

(** ** Data model *)

(** The identity returned by the authentication collaborator; the code
    reads [user.id] only. *)
Record User : Type := mkUser { uid : string }.

(** A row of the [notes] table. *)
Record Note : Type := mkNote {
  id : N;
  user_id : string;
  title : string;
  content : string;
  updated_at : N
}.

(** The edit buffer [editNote]: [{ title, content }]. *)
Record Draft : Type := mkDraft {
  d_title : string;
  d_content : string
}.

Inductive Theme : Type := Light | Dark.
Inductive AuthView : Type := SignInView | SignUpView.

(** The [useState] cells of [App]. *)
Record AppState : Type := mkApp {
  theme : Theme;
  user : option User;
  authView : AuthView;
  notes : list Note;
  loadingNotes : bool;
  selectedNote : option Note;
  editNote : Draft;
  search : string;
  adding : bool
}.

(** The state of the first render. *)
Definition initial : AppState :=
  mkApp Light None SignInView [] false None (mkDraft "" "") "" false.

Definition setTheme (v : Theme) (s : AppState) : AppState :=
  mkApp v (user s) (authView s) (notes s) (loadingNotes s)
        (selectedNote s) (editNote s) (search s) (adding s).
Definition setUser (v : option User) (s : AppState) : AppState :=
  mkApp (theme s) v (authView s) (notes s) (loadingNotes s)
        (selectedNote s) (editNote s) (search s) (adding s).
Definition setAuthView (v : AuthView) (s : AppState) : AppState :=
  mkApp (theme s) (user s) v (notes s) (loadingNotes s)
        (selectedNote s) (editNote s) (search s) (adding s).
Definition setNotes (v : list Note) (s : AppState) : AppState :=
  mkApp (theme s) (user s) (authView s) v (loadingNotes s)
        (selectedNote s) (editNote s) (search s) (adding s).
Definition setLoadingNotes (v : bool) (s : AppState) : AppState :=
  mkApp (theme s) (user s) (authView s) (notes s) v
        (selectedNote s) (editNote s) (search s) (adding s).
(** [setSelectedNote] is also called with an updater function, hence the
    functional form: [setSelectedNote(v)] is [updSelectedNote (fun _ => v)]. *)
Definition updSelectedNote (f : option Note -> option Note) (s : AppState)
  : AppState :=
  mkApp (theme s) (user s) (authView s) (notes s) (loadingNotes s)
        (f (selectedNote s)) (editNote s) (search s) (adding s).
Definition setSelectedNote (v : option Note) : AppState -> AppState :=
  updSelectedNote (fun _ => v).
Definition updEditNote (f : Draft -> Draft) (s : AppState) : AppState :=
  mkApp (theme s) (user s) (authView s) (notes s) (loadingNotes s)
        (selectedNote s) (f (editNote s)) (search s) (adding s).
Definition setEditNote (v : Draft) : AppState -> AppState :=
  updEditNote (fun _ => v).
Definition setSearch (v : string) (s : AppState) : AppState :=
  mkApp (theme s) (user s) (authView s) (notes s) (loadingNotes s)
        (selectedNote s) (editNote s) v (adding s).
Definition setAdding (v : bool) (s : AppState) : AppState :=
  mkApp (theme s) (user s) (authView s) (notes s) (loadingNotes s)
        (selectedNote s) (editNote s) (search s) v.

(** What the page layout shows for an authenticated user:
    [adding ? <NoteEditor/> : selectedNote ? <NoteEditor/> : placeholder].
    The code has one screen for a selected note, so the specification's
    [Viewing(note)] and [Editing(draft, note)] are both [Viewing note] here
    (the draft is [editNote]); [Editing(draft, none)] is [Creating]. *)
Inductive EditorMode : Type :=
| Browsing
| Viewing (n : Note)
| Creating.

Definition editor_mode (s : AppState) : EditorMode :=
  if adding s then Creating
  else match selectedNote s with
       | Some n => Viewing n
       | None => Browsing
       end.

(** [if (!user) return <AuthForm />]. *)
Definition unauthenticated_view (s : AppState) : bool :=
  match user s with
  | None => true
  | Some _ => false
  end.

(** ** Requests to the remote store

    A query built with the store client: a table, a verb, the filters
    chained on it and an optional ordering. *)
Inductive Column : Type := ColId | ColUserId | ColTitle | ColContent | ColUpdatedAt.

Inductive Value : Type :=
| VNum (n : N)
| VText (s : string).

Inductive Filter : Type :=
| FEq (c : Column) (v : Value)
| FILike (c : Column) (pattern : string).

(** The object passed to [insert]. *)
Record NewRow : Type := mkNewRow {
  nr_user_id : string;
  nr_title : string;
  nr_content : string
}.

(** The object passed to [update]. *)
Record Patch : Type := mkPatch {
  p_title : string;
  p_content : string;
  p_updated_at : N
}.

Inductive Verb : Type :=
| Select
| Insert (rows : list NewRow)
| Update (p : Patch)
| Delete.

(** [order = Some (c, asc)] is [.order(c, { ascending: asc })]. *)
Record Request : Type := mkRequest {
  table : string;
  verb : Verb;
  filters : list Filter;
  order : option (Column * bool)
}.

Record Failure : Type := mkFailure { message : string }.

(** The [{ data, error }] pair a request resolves to. *)
Inductive Reply (A : Type) : Type :=
| Success (data : A)
| Failed (error : Failure).
Arguments Success {A} data.
Arguments Failed {A} error.

(** What a handler does besides updating the state, in program order. *)
Inductive Effect : Type :=
| PreventDefault
| Alert (msg : string)
| Confirm (msg : string)
| Send (q : Request)
| AuthSignOut.

(** The requests of a trace. *)
Fixpoint requests (tr : list Effect) : list Request :=
  match tr with
  | [] => []
  | Send q :: tr' => q :: requests tr'
  | _ :: tr' => requests tr'
  end.

(** The messages shown to the user. *)
Fixpoint alerts (tr : list Effect) : list string :=
  match tr with
  | [] => []
  | Alert m :: tr' => m :: alerts tr'
  | _ :: tr' => alerts tr'
  end.

(** ** Handlers

    A handler is a closure of one render: it reads the state cells of that
    render, queues state updates against the store, and performs effects.
    Reading a property of [null] throws. *)
Inductive JsError : Type :=
| TypeError (what : string).

Inductive Outcome (A : Type) : Type :=
| Done (a : A) (st : AppState) (tr : list Effect)
| Thrown (e : JsError) (st : AppState) (tr : list Effect).
Arguments Done {A} a st tr.
Arguments Thrown {A} e st tr.

Definition Handler (A : Type) : Type := AppState -> AppState -> Outcome A.

Definition ret {A : Type} (a : A) : Handler A :=
  fun _ st => Done a st [].

Definition bind {A B : Type} (m : Handler A) (k : A -> Handler B) : Handler B :=
  fun r st =>
    match m r st with
    | Done a st1 tr1 =>
        match k a r st1 with
        | Done b st2 tr2 => Done b st2 (tr1 ++ tr2)
        | Thrown e st2 tr2 => Thrown e st2 (tr1 ++ tr2)
        end
    | Thrown e st1 tr1 => Thrown e st1 tr1
    end.

Notation "x <- m ;; k" := (bind m (fun x => k))
  (at level 61, m at next level, right associativity).
Notation "m ;; k" := (bind m (fun _ => k))
  (at level 61, right associativity).

(** A variable of the render closure. *)
Definition read {A : Type} (f : AppState -> A) : Handler A :=
  fun r st => Done (f r) st [].

(** A state setter. *)
Definition write (f : AppState -> AppState) : Handler unit :=
  fun _ st => Done tt (f st) [].

Definition emit (e : Effect) : Handler unit :=
  fun _ st => Done tt st [e].

(** [x.p] where [x] may be [null]. *)
Definition deref {A : Type} (what : string) (f : AppState -> option A)
  : Handler A :=
  fun r st =>
    match f r with
    | Some a => Done a st []
    | None => Thrown (TypeError what) st []
    end.

(** A call of an async function that is not awaited: a rejection stays in
    the dropped promise and the caller goes on. *)
Definition spawn (m : Handler unit) : Handler unit :=
  fun r st =>
    match m r st with
    | Done _ st1 tr1 => Done tt st1 tr1
    | Thrown _ st1 tr1 => Done tt st1 tr1
    end.

(** A handler run to completion on the state it was rendered from, with no
    other event in between (the specification's single flow of control). *)
Definition run {A : Type} (m : Handler A) (s : AppState) : Outcome A := m s s.

Definition outcome_state {A : Type} (o : Outcome A) : AppState :=
  match o with
  | Done _ st _ => st
  | Thrown _ st _ => st
  end.

Definition outcome_trace {A : Type} (o : Outcome A) : list Effect :=
  match o with
  | Done _ _ tr => tr
  | Thrown _ _ tr => tr
  end.

Definition completed {A : Type} (o : Outcome A) : bool :=
  match o with
  | Done _ _ _ => true
  | Thrown _ _ _ => false
  end.

(** *** [fetchNotes] *)

(** The query of [fetchNotes]:
    [from('notes').select('*').eq('user_id', user.id)
       .order('updated_at', { ascending: false })],
    and [.ilike('title', `%${search}%`)] when [search] is truthy. *)
Definition fetch_query (owner term : string) : Request :=
  mkRequest "notes" Select
    (FEq ColUserId (VText owner) ::
     (if is_empty term then []
      else [FILike ColTitle ("%" ++ term ++ "%")%string]))
    (Some (ColUpdatedAt, false)).

(** Up to [await query]: the request leaves. *)
Definition fetchNotes_begin : Handler unit :=
  write (setLoadingNotes true) ;;
  u <- deref "user.id" user ;;
  term <- read search ;;
  emit (Send (fetch_query (uid u) term)).

(** From the reply on. *)
Definition fetchNotes_resume (reply : Reply (list Note)) : Handler unit :=
  match reply with
  | Failed _ => write (setNotes [])
  | Success data => write (setNotes data)
  end ;;
  write (setLoadingNotes false).

Definition fetchNotes (reply : Reply (list Note)) : Handler unit :=
  fetchNotes_begin ;; fetchNotes_resume reply.

(** *** Selection and editing *)

Definition handleNoteSelect (note : Note) : Handler unit :=
  write (setSelectedNote (Some note)) ;;
  write (setEditNote (mkDraft (title note) (content note))) ;;
  write (setAdding false).

Definition handleNoteAddClick : Handler unit :=
  write (setAdding true) ;;
  write (setSelectedNote None) ;;
  write (setEditNote (mkDraft "" "")).

(** The [name] of the input that changed. *)
Inductive Field : Type := FTitle | FContent.

Definition handleNoteEditChange (name : Field) (value : string) : Handler unit :=
  write (updEditNote (fun prev =>
    match name with
    | FTitle => mkDraft value (d_content prev)
    | FContent => mkDraft (d_title prev) value
    end)).

Definition handleSearchChange (value : string) : Handler unit :=
  write (setSearch value).

Definition toggleTheme : Handler unit :=
  write (fun s => setTheme (match theme s with Light => Dark | Dark => Light end) s).

(** [{ ...prev, ...editNote }] for a selected note [prev]. (The updater
    meets [prev = null] only if the selection is cleared while the update
    request is in flight; [run] below has no such interleaving.) *)
Definition merge_draft (prev : Note) (d : Draft) : Note :=
  mkNote (id prev) (user_id prev) (d_title d) (d_content d) (updated_at prev).

Definition insert_request (owner : string) (d : Draft) : Request :=
  mkRequest "notes"
    (Insert [mkNewRow owner (d_title d) (or_empty (d_content d))]) [] None.

Definition update_request (now : N) (note_id : N) (owner : string) (d : Draft)
  : Request :=
  mkRequest "notes"
    (Update (mkPatch (d_title d) (or_empty (d_content d)) now))
    [FEq ColId (VNum note_id); FEq ColUserId (VText owner)] None.

Definition delete_request (note_id : N) (owner : string) : Request :=
  mkRequest "notes" Delete
    [FEq ColId (VNum note_id); FEq ColUserId (VText owner)] None.

(** The titles a request carries to the store. *)
Definition sent_titles (q : Request) : list string :=
  match verb q with
  | Insert rows => map nr_title rows
  | Update p => [p_title p]
  | Select | Delete => []
  end.

(** [handleNoteSave]; [now] is the reading of [new Date()], [reply] what the
    insert or update request resolves to. *)
Definition handleNoteSave (now : N) (reply : Reply unit) : Handler unit :=
  emit PreventDefault ;;
  draft <- read editNote ;;
  if is_empty (trim (d_title draft)) then
    emit (Alert "Title is required.")
  else
    is_adding <- read adding ;;
    if is_adding then
      u <- deref "user.id" user ;;
      emit (Send (insert_request (uid u) draft)) ;;
      match reply with
      | Success _ =>
          write (setAdding false) ;;
          spawn fetchNotes_begin
      | Failed error => emit (Alert (message error))
      end
    else
      sel <- deref "selectedNote.id" selectedNote ;;
      u <- deref "user.id" user ;;
      emit (Send (update_request now (id sel) (uid u) draft)) ;;
      match reply with
      | Success _ =>
          write (updSelectedNote (option_map (fun prev => merge_draft prev draft))) ;;
          spawn fetchNotes_begin
      | Failed error => emit (Alert (message error))
      end.

(** [handleNoteDelete]; [confirmed] is the answer to [window.confirm]. *)
Definition handleNoteDelete (confirmed : bool) (reply : Reply unit)
  : Handler unit :=
  sel0 <- read selectedNote ;;
  match sel0 with
  | None => ret tt
  | Some sel =>
      emit (Confirm "Delete this note?") ;;
      if negb confirmed then ret tt
      else
        u <- deref "user.id" user ;;
        emit (Send (delete_request (id sel) (uid u))) ;;
        match reply with
        | Success _ =>
            write (setSelectedNote None) ;;
            spawn fetchNotes_begin
        | Failed error => emit (Alert (message error))
        end
  end.

(** *** Session *)

Definition handleLogout : Handler unit :=
  emit AuthSignOut ;;
  write (setUser None) ;;
  write (setNotes []) ;;
  write (setSelectedNote None).

Record Session : Type := mkSession { s_user : User }.

(** The callback given to [onAuthStateChange]:
    [setUser(session?.user ?? null)], and the clearing on ['SIGNED_OUT']. *)
Definition onAuthStateChange (event : string) (session : option Session)
  : Handler unit :=
  write (setUser (option_map s_user session)) ;;
  if String.eqb event "SIGNED_OUT" then
    write (setNotes []) ;;
    write (setSelectedNote None)
  else ret tt.

(** ** The remote store

    The part of the store the requests are answered by: the [notes] table
    as a list of rows, the [eq] and [ilike] operators and [order]. *)
Module Store.

Definition cell (c : Column) (n : Note) : Value :=
  match c with
  | ColId => VNum (id n)
  | ColUserId => VText (user_id n)
  | ColTitle => VText (title n)
  | ColContent => VText (content n)
  | ColUpdatedAt => VNum (updated_at n)
  end.

Definition value_eqb (a b : Value) : bool :=
  match a, b with
  | VNum x, VNum y => N.eqb x y
  | VText x, VText y => String.eqb x y
  | _, _ => false
  end.

(** Numbers by size, texts in dictionary order, numbers before texts. *)
Definition value_leb (a b : Value) : bool :=
  match a, b with
  | VNum x, VNum y => N.leb x y
  | VText x, VText y => String.leb x y
  | VNum _, VText _ => true
  | VText _, VNum _ => false
  end.

(** SQL [LIKE]: [%] stands for any run of characters, [_] for any one
    character, a backslash makes the next pattern character literal. A
    pattern that ends in a lone backslash matches nothing. *)
Fixpoint like (p : string) : string -> bool :=
  match p with
  | EmptyString => fun s => is_empty s
  | String c p' =>
      if Ascii.eqb c "%" then
        fix any (s : string) : bool :=
          like p' s ||
          match s with
          | EmptyString => false
          | String _ s' => any s'
          end
      else if Ascii.eqb c "_" then
        fun s =>
          match s with
          | EmptyString => false
          | String _ s' => like p' s'
          end
      else if Ascii.eqb c "\" then
        match p' with
        | EmptyString => fun _ => false
        | String e p'' =>
            fun s =>
              match s with
              | EmptyString => false
              | String d s' => Ascii.eqb d e && like p'' s'
              end
        end
      else
        fun s =>
          match s with
          | EmptyString => false
          | String d s' => Ascii.eqb d c && like p' s'
          end
  end.

(** In the pattern of a request [*] is an alias of [%]. *)
Fixpoint star_alias (p : string) : string :=
  match p with
  | EmptyString => EmptyString
  | String c p' => String (if Ascii.eqb c "*" then "%"%char else c) (star_alias p')
  end.

(** The [ilike] operator: [LIKE] without regard to case. *)
Definition ilike (pattern s : string) : bool :=
  like (toLowerCase (star_alias pattern)) (toLowerCase s).

(** A character with no special meaning in a pattern. *)
Definition literal_char (c : ascii) : bool :=
  negb (Ascii.eqb c "%" || Ascii.eqb c "_" || Ascii.eqb c "\" || Ascii.eqb c "*").

Fixpoint literal (t : string) : bool :=
  match t with
  | EmptyString => true
  | String c t' => literal_char c && literal t'
  end.

Definition holds (f : Filter) (n : Note) : bool :=
  match f with
  | FEq c v => value_eqb (cell c n) v
  | FILike c pattern =>
      match cell c n with
      | VText s => ilike pattern s
      | VNum _ => false
      end
  end.

Definition matches (fs : list Filter) (n : Note) : bool :=
  forallb (fun f => holds f n) fs.

(** [before c asc x y]: [x] may precede [y] under [order(c, {ascending})]. *)
Definition before (c : Column) (asc : bool) (x y : Note) : bool :=
  if asc then value_leb (cell c x) (cell c y)
  else value_leb (cell c y) (cell c x).

Fixpoint insert_by (le : Note -> Note -> bool) (x : Note) (l : list Note)
  : list Note :=
  match l with
  | [] => [x]
  | y :: l' => if le x y then x :: l else y :: insert_by le x l'
  end.

Fixpoint sort_by (le : Note -> Note -> bool) (l : list Note) : list Note :=
  match l with
  | [] => []
  | x :: l' => insert_by le x (sort_by le l')
  end.

Definition ordered (o : option (Column * bool)) (l : list Note) : list Note :=
  match o with
  | None => l
  | Some (c, asc) => sort_by (before c asc) l
  end.

(** Newest first. *)
Definition newer_first (x y : Note) : Prop :=
  (updated_at y <= updated_at x)%N.

(** The rows a request designates in a table. *)
Definition rows_of (q : Request) (tbl : list Note) : list Note :=
  ordered (order q) (filter (matches (filters q)) tbl).

End Store.

(** ** The debounced search

    [useEffect(() => { if (!user) return;
                       const timeout = setTimeout(() => fetchNotes(), 300);
                       return () => clearTimeout(timeout); }, [search])]
    on a clock that counts milliseconds. *)
Module Debounce.

Definition delay : nat := 300.

(** A scheduled callback with the render it closes over. *)
Record Timeout : Type := mkTimeout {
  deadline : nat;
  closure : AppState
}.

Record Runtime : Type := mkRuntime {
  clock : nat;
  store : AppState;
  pending : option Timeout;
  mounted : bool;
  log : list Effect
}.

(** The body of the effect, run at time [now] in render [r]. *)
Definition search_effect (now : nat) (r : AppState) : option Timeout :=
  match user r with
  | None => None
  | Some _ => Some (mkTimeout (now + delay) r)
  end.

(** The timer callback: [fetchNotes()] of the render that set it. *)
Definition fire (tm : Timeout) (rt : Runtime) : Runtime :=
  let o := spawn fetchNotes_begin (closure tm) (store rt) in
  mkRuntime (clock rt) (outcome_state o) None (mounted rt)
            (log rt ++ outcome_trace o).

(** Time passes until [t]; a timeout that is due runs. *)
Definition advance (t : nat) (rt : Runtime) : Runtime :=
  let rt1 :=
    match pending rt with
    | Some tm => if (deadline tm <=? t)%nat then fire tm rt else rt
    | None => rt
    end in
  mkRuntime (Nat.max (clock rt1) t) (store rt1) (pending rt1) (mounted rt1)
            (log rt1).

(** [handleSearchChange]: a new value re-renders, the cleanup of the last
    run of the effect clears its timeout and the effect runs again; the
    same value leaves the dependency [search] as it is and nothing runs. *)
Definition search_input (v : string) (rt : Runtime) : Runtime :=
  if negb (mounted rt) then rt
  else if String.eqb v (search (store rt)) then rt
  else
    let st := outcome_state (run (handleSearchChange v) (store rt)) in
    mkRuntime (clock rt) st (search_effect (clock rt) st) true (log rt).

(** Teardown of the component: the cleanup runs, nothing is left
    scheduled. *)
Definition unmount (rt : Runtime) : Runtime :=
  mkRuntime (clock rt) (store rt) None false (log rt).

Inductive Event : Type :=
| SearchInput (v : string)
| Unmount
| Wait.

Definition apply_event (e : Event) (rt : Runtime) : Runtime :=
  match e with
  | SearchInput v => search_input v rt
  | Unmount => unmount rt
  | Wait => rt
  end.

(** An event at time [t]. *)
Definition step (te : nat * Event) (rt : Runtime) : Runtime :=
  apply_event (snd te) (advance (fst te) rt).

Fixpoint run_events (l : list (nat * Event)) (rt : Runtime) : Runtime :=
  match l with
  | [] => rt
  | te :: l' => run_events l' (step te rt)
  end.

Definition typing (changes : list (nat * string)) : list (nat * Event) :=
  map (fun c => (fst c, SearchInput (snd c))) changes.

(** The [load] calls made so far. *)
Definition loads (rt : Runtime) : list Request := requests (log rt).

(** Changes that follow one another: each within [delay] of the one
    before and to a different term. *)
Fixpoint burst (t0 : nat) (v0 : string) (l : list (nat * string)) : Prop :=
  match l with
  | [] => True
  | (t, v) :: l' =>
      (t0 <= t)%nat /\ (t < t0 + delay)%nat /\ v <> v0 /\ burst t v l'
  end.

(** The last change of a sequence that starts with [(t0, v0)]. *)
Fixpoint final (t0 : nat) (v0 : string) (l : list (nat * string))
  : nat * string :=
  match l with
  | [] => (t0, v0)
  | (t, v) :: l' => final t v l'
  end.

End Debounce.

(** ** The sign-in and sign-up forms *)

(** Calls to the authentication client other than [signOut]. *)
Inductive AuthCall : Type :=
| SignInWithPassword (email password : string)
| SignUp (email password : string).

(** What the form handlers do, in program order. *)
Inductive AuthStep : Type :=
| Local (e : Effect)
| Auth (c : AuthCall).

(** [handleSignIn]; [reply] is what [signInWithPassword] resolves to. The
    identity is not set here: it comes with the session-change callback. *)
Definition handleSignIn (email password : string) (reply : Reply unit)
  (st : AppState) : AppState * list AuthStep :=
  match reply with
  | Success _ =>
      (setAuthView SignInView st,
       [Local PreventDefault; Auth (SignInWithPassword email password)])
  | Failed error =>
      (st,
       [Local PreventDefault; Auth (SignInWithPassword email password);
        Local (Alert (message error))])
  end.

Definition handleSignUp (email password : string) (reply : Reply unit)
  (st : AppState) : AppState * list AuthStep :=
  match reply with
  | Success _ =>
      (setAuthView SignInView st,
       [Local PreventDefault; Auth (SignUp email password);
        Local (Alert "Sign up successful, now you can log in.")])
  | Failed error =>
      (st,
       [Local PreventDefault; Auth (SignUp email password);
        Local (Alert (message error))])
  end.

(** [handleAuth], the [onSubmit] of the form: [r] is the render the form
    belongs to, [st] the store. *)
Definition handleAuth (email password : string) (reply : Reply unit)
  (r st : AppState) : AppState * list AuthStep :=
  let res :=
    match authView r with
    | SignInView => handleSignIn email password reply st
    | SignUpView => handleSignUp email password reply st
    end in
  (fst res, Local PreventDefault :: snd res).

(** The calls to the authentication client in a trace. *)
Fixpoint auth_calls (tr : list AuthStep) : list AuthCall :=
  match tr with
  | [] => []
  | Auth c :: tr' => c :: auth_calls tr'
  | Local _ :: tr' => auth_calls tr'
  end.

(** The button under the form:
    [setAuthView(authView === 'sign-in' ? 'sign-up' : 'sign-in')]. *)
Definition switchAuthView : Handler unit :=
  v <- read authView ;;
  write (setAuthView (match v with
                      | SignInView => SignUpView
                      | SignUpView => SignInView
                      end)).

(** [getUser] from its reply on: [if (data && data.user) setUser(data.user)];
    [found] is [data.user]. *)
Definition getUser (found : option User) : Handler unit :=
  match found with
  | Some u => write (setUser (Some u))
  | None => ret tt
  end.

(** The effect on [user]: [if (!user) return; fetchNotes()]. *)
Definition user_effect : Handler unit :=
  u <- read user ;;
  match u with
  | None => ret tt
  | Some _ => spawn fetchNotes_begin
  end.

(** ** What is on screen

    The page as a value: the conditions and the texts of the JSX, without
    styles. The top bar (theme button, logout button) is on every page of
    a signed-in user and is left out, as are the dates of the notes. *)

Record AuthFormView : Type := mkAuthForm {
  heading : string;
  submit_text : string;
  switch_text : string
}.

Definition AuthForm (s : AppState) : AuthFormView :=
  match authView s with
  | SignInView => mkAuthForm "Sign In" "Sign In" "No account? Sign Up"
  | SignUpView => mkAuthForm "Sign Up" "Sign Up" "Already signed up? Sign In"
  end.

(** One entry of the list of notes; [item_highlighted] is
    [selectedNote && selectedNote.id === note.id]. *)
Record SidebarItem : Type := mkItem {
  item_key : N;
  item_title : string;
  item_highlighted : bool
}.

Definition sidebar_item (sel : option Note) (note : Note) : SidebarItem :=
  mkItem (id note) (title note)
    (match sel with
     | Some n => N.eqb (id n) (id note)
     | None => false
     end).

Record SidebarView : Type := mkSidebar {
  add_disabled : bool;
  search_value : string;
  loading_shown : bool;
  empty_shown : bool;
  items : list SidebarItem
}.

Definition Sidebar (s : AppState) : SidebarView :=
  mkSidebar (adding s) (search s) (loadingNotes s)
    (negb (loadingNotes s) && (length (notes s) =? 0)%nat)
    (map (sidebar_item (selectedNote s)) (notes s)).

(** The form of [NoteEditor]: the two inputs, the submit button
    ([adding ? "Create" : "Save"]) and the delete button ([!adding]). *)
Record EditorView : Type := mkEditor {
  title_value : string;
  content_value : string;
  submit_label : string;
  delete_shown : bool
}.

Definition NoteEditor (s : AppState) : EditorView :=
  mkEditor (d_title (editNote s)) (d_content (editNote s))
    (if adding s then "Create" else "Save") (negb (adding s)).

Inductive MainView : Type :=
| EditorPane (e : EditorView)
| Placeholder (text : string).

Inductive Page : Type :=
| AuthPage (f : AuthFormView)
| NotesPage (sb : SidebarView) (main : MainView).

(** The page layout of [App]. *)
Definition App (s : AppState) : Page :=
  match user s with
  | None => AuthPage (AuthForm s)
  | Some _ =>
      NotesPage (Sidebar s)
        (if adding s then EditorPane (NoteEditor s)
         else match selectedNote s with
              | Some _ => EditorPane (NoteEditor s)
              | None =>
                  Placeholder "Select a note or add a new note to get started."
              end)
  end.

(** The delete button is on the page. *)
Definition delete_offered (p : Page) : bool :=
  match p with
  | NotesPage _ (EditorPane e) => delete_shown e
  | _ => false
  end.

(** The titles the page shows: those of the list and the one in the
    editor. *)
Definition titles_on (p : Page) : list string :=
  match p with
  | AuthPage _ => []
  | NotesPage sb main =>
      map item_title (items sb) ++
      match main with
      | EditorPane e => [title_value e]
      | Placeholder _ => []
      end
  end.

(** ** Changes in the store

    What an update and a delete request do to the table: the rows that
    pass the filters are patched, or removed. *)
Module Mutation.
Import Store.

Definition patched (p : Patch) (n : Note) : Note :=
  mkNote (id n) (user_id n) (p_title p) (p_content p) (p_updated_at p).

Definition update_rows (p : Patch) (fs : list Filter) (tbl : list Note)
  : list Note :=
  map (fun n => if matches fs n then patched p n else n) tbl.

Definition delete_rows (fs : list Filter) (tbl : list Note) : list Note :=
  filter (fun n => negb (matches fs n)) tbl.

(** The table after an update or delete request; a select leaves it as it
    is. The rows an insert adds get their id and date from the store and
    are not modelled. *)
Definition table_after (q : Request) (tbl : list Note) : option (list Note) :=
  match verb q with
  | Select => Some tbl
  | Update p => Some (update_rows p (filters q) tbl)
  | Delete => Some (delete_rows (filters q) tbl)
  | Insert _ => None
  end.

End Mutation.

(** ** Sequences of user actions *)

(** One event of the component with what the outside answers to it. *)
Inductive Action : Type :=
| DoSelect (note : Note)
| DoAddClick
| DoEditChange (name : Field) (value : string)
| DoSearchChange (value : string)
| DoToggleTheme
| DoSave (now : N) (reply : Reply unit)
| DoDelete (confirmed : bool) (reply : Reply unit)
| DoFetch (reply : Reply (list Note))
| DoLogout
| DoAuthEvent (event : string) (session : option Session)
| DoAuth (email password : string) (reply : Reply unit)
| DoSwitchAuthView
| DoGetUser (found : option User).

(** The state after an action, run to completion. *)
Definition perform (s : AppState) (a : Action) : AppState :=
  match a with
  | DoSelect note => outcome_state (run (handleNoteSelect note) s)
  | DoAddClick => outcome_state (run handleNoteAddClick s)
  | DoEditChange name value =>
      outcome_state (run (handleNoteEditChange name value) s)
  | DoSearchChange value => outcome_state (run (handleSearchChange value) s)
  | DoToggleTheme => outcome_state (run toggleTheme s)
  | DoSave now reply => outcome_state (run (handleNoteSave now reply) s)
  | DoDelete confirmed reply =>
      outcome_state (run (handleNoteDelete confirmed reply) s)
  | DoFetch reply => outcome_state (run (fetchNotes reply) s)
  | DoLogout => outcome_state (run handleLogout s)
  | DoAuthEvent event session =>
      outcome_state (run (onAuthStateChange event session) s)
  | DoAuth email password reply => fst (handleAuth email password reply s s)
  | DoSwitchAuthView => outcome_state (run switchAuthView s)
  | DoGetUser found => outcome_state (run (getUser found) s)
  end.

Definition perform_all (l : list Action) (s : AppState) : AppState :=
  fold_left perform l s.

(** The state a handler leaves when it runs on [s]. *)
Definition then_run (s : AppState) (h : Handler unit) : AppState :=
  outcome_state (run h s).

(** ** Changes of the search term with pauses *)
Module Pace.
Import Debounce.

(** Changes that come one at a time: each [delay] or more after the one
    before and to a different term. *)
Fixpoint spaced (t0 : nat) (v0 : string) (l : list (nat * string)) : Prop :=
  match l with
  | [] => True
  | (t, v) :: l' => (t0 + delay <= t)%nat /\ v <> v0 /\ spaced t v l'
  end.

End Pace.

(** ** The shape of reachable states

    [handleNoteAddClick] clears the selection when it sets [adding], and
    [handleNoteSelect] resets [adding]: while a note is being created no
    note is selected. *)
Definition creating_has_no_target (s : AppState) : Prop :=
  adding s = true -> selectedNote s = None.

(** ** Sample states

    Concrete states on which the statements below are instantiated. *)
Module Sample.

Definition alice : User := mkUser "alice".

Definition groceries : Note := mkNote 7 "alice" "Groceries" "milk, eggs" 100.
Definition minutes : Note := mkNote 8 "alice" "Minutes" "" 250.

(** Creating a note whose title has blanks around it. *)
Definition creating : AppState :=
  mkApp Light (Some alice) SignInView [minutes; groceries] false None
        (mkDraft " Plan " "first draft") "" true.

(** The note [groceries] selected, its title edited. *)
Definition editing : AppState :=
  mkApp Light (Some alice) SignInView [minutes; groceries] false
        (Some groceries) (mkDraft " Groceries (week 2) " "milk") "gro" false.

(** A draft whose title is made of blanks. *)
Definition blank_title : AppState :=
  mkApp Light (Some alice) SignInView [minutes; groceries] false None
        (mkDraft "   " "text") "" true.

(** Nothing selected, nothing being created. *)
Definition browsing : AppState :=
  mkApp Light (Some alice) SignInView [minutes; groceries] false None
        (mkDraft "" "") "" false.

Definition refused : Failure := mkFailure "permission denied".

(** The underscore typed in the search box. *)
Definition searching_underscore : AppState :=
  mkApp Light (Some alice) SignInView [minutes; groceries] false None
        (mkDraft "" "") "_" false.

(** The mounted component at time 0, nothing scheduled. *)
Definition idle : Debounce.Runtime :=
  Debounce.mkRuntime 0 browsing None true [].

(** Three keystrokes, 40 ms and 90 ms apart. *)
Definition keystrokes : list (nat * string) :=
  [(10, "g"); (50, "gr"); (140, "gro")].

(** Two changes of the term with a pause of 400 ms between them. *)
Definition slow_typing : list (nat * string) :=
  [(10, "g"); (410, "gr")].

(** The component before anybody has signed in. *)
Definition signed_out : Debounce.Runtime :=
  Debounce.mkRuntime 0 initial None true [].

(** The [notes] table: two notes of [alice], one of somebody else. *)
Definition table : list Note :=
  [groceries; mkNote 9 "bob" "Groceries" "bread" 300; minutes].

End Sample.

(** * Properties *)

(** ** Strings *)

Lemma or_empty_id (x : string) : or_empty x = x.
Proof. destruct x; reflexivity. Qed.

Lemma is_empty_true (s : string) : is_empty s = true <-> s = "".
Proof. destruct s; simpl; split; congruence. Qed.

Lemma is_empty_false (s : string) : is_empty s = false <-> s <> "".
Proof. destruct s; simpl; split; congruence. Qed.

Lemma trimStart_all_ws (s : string) : all_ws s = true -> trimStart s = "".
Proof.
  induction s as [|c s IH]; simpl; [reflexivity|].
  intros H. apply andb_true_iff in H as [Hc Hs].
  rewrite Hc. auto.
Qed.

Lemma trimStart_not_ws (s : string) :
  all_ws s = false ->
  exists c r, trimStart s = String c r /\ is_ws c = false.
Proof.
  induction s as [|c s IH]; simpl; [discriminate|].
  destruct (is_ws c) eqn:Hc; simpl.
  - exact IH.
  - intros _. exists c, s. split; [reflexivity | exact Hc].
Qed.

(** The validation test of the save handler: the trimmed title is empty
    exactly when the title is made of white space only. *)
Lemma trim_empty_iff (s : string) : trim s = "" <-> all_ws s = true.
Proof.
  unfold trim. split.
  - intros H. destruct (all_ws s) eqn:E; [reflexivity|].
    destruct (trimStart_not_ws s E) as (c & r & Hr & Hc).
    rewrite Hr in H. simpl in H. rewrite Hc in H. discriminate.
  - intros H. rewrite (trimStart_all_ws s H). reflexivity.
Qed.

(** ** Saving *)

(** Unfolds the handler combinators, leaving the tests on the state. *)
Ltac step_handler :=
  cbv [run bind ret read write emit deref spawn negb
       fetchNotes fetchNotes_begin fetchNotes_resume
       handleNoteSave handleNoteDelete handleLogout onAuthStateChange
       outcome_state outcome_trace completed].

Lemma fetchNotes_begin_run (r st : AppState) (u : User) :
  user r = Some u ->
  spawn fetchNotes_begin r st
  = Done tt (setLoadingNotes true st) [Send (fetch_query (uid u) (search r))].
Proof.
  intros Hu. step_handler. rewrite Hu. reflexivity.
Qed.

(** Creating: the insert leaves, [adding] is reset and the list is fetched
    again. *)
Lemma save_create_ok (now : N) (s : AppState) (u : User) :
  user s = Some u ->
  trim (d_title (editNote s)) <> "" ->
  adding s = true ->
  run (handleNoteSave now (Success tt)) s
  = Done tt (setLoadingNotes true (setAdding false s))
      [PreventDefault;
       Send (insert_request (uid u) (editNote s));
       Send (fetch_query (uid u) (search s))].
Proof.
  intros Hu Ht Ha. apply is_empty_false in Ht.
  step_handler. rewrite Ht, Ha, Hu. reflexivity.
Qed.

(** Updating: the update leaves, the selection takes the draft and the list
    is fetched again. *)
Lemma save_update_ok (now : N) (s : AppState) (u : User) (n : Note) :
  user s = Some u ->
  trim (d_title (editNote s)) <> "" ->
  adding s = false ->
  selectedNote s = Some n ->
  run (handleNoteSave now (Success tt)) s
  = Done tt
      (setLoadingNotes true
         (setSelectedNote (Some (merge_draft n (editNote s))) s))
      [PreventDefault;
       Send (update_request now (id n) (uid u) (editNote s));
       Send (fetch_query (uid u) (search s))].
Proof.
  intros Hu Ht Ha Hn. apply is_empty_false in Ht.
  step_handler. rewrite Ht, Ha, Hn, Hu.
  unfold setSelectedNote, updSelectedNote. simpl. rewrite Hn. reflexivity.
Qed.

Lemma save_create_failed (now : N) (s : AppState) (u : User) (e : Failure) :
  user s = Some u ->
  trim (d_title (editNote s)) <> "" ->
  adding s = true ->
  run (handleNoteSave now (Failed e)) s
  = Done tt s
      [PreventDefault; Send (insert_request (uid u) (editNote s));
       Alert (message e)].
Proof.
  intros Hu Ht Ha. apply is_empty_false in Ht.
  step_handler. rewrite Ht, Ha, Hu. reflexivity.
Qed.

Lemma save_update_failed (now : N) (s : AppState) (u : User) (n : Note)
  (e : Failure) :
  user s = Some u ->
  trim (d_title (editNote s)) <> "" ->
  adding s = false ->
  selectedNote s = Some n ->
  run (handleNoteSave now (Failed e)) s
  = Done tt s
      [PreventDefault; Send (update_request now (id n) (uid u) (editNote s));
       Alert (message e)].
Proof.
  intros Hu Ht Ha Hn. apply is_empty_false in Ht.
  step_handler. rewrite Ht, Ha, Hn, Hu. reflexivity.
Qed.

Lemma save_blank (now : N) (reply : Reply unit) (s : AppState) :
  all_ws (d_title (editNote s)) = true ->
  run (handleNoteSave now reply) s
  = Done tt s [PreventDefault; Alert "Title is required."].
Proof.
  intros Hw. apply trim_empty_iff in Hw.
  step_handler. rewrite Hw. reflexivity.
Qed.

(** ** Deleting *)

Lemma delete_ok (s : AppState) (u : User) (n : Note) :
  user s = Some u ->
  selectedNote s = Some n ->
  run (handleNoteDelete true (Success tt)) s
  = Done tt (setLoadingNotes true (setSelectedNote None s))
      [Confirm "Delete this note?";
       Send (delete_request (id n) (uid u));
       Send (fetch_query (uid u) (search s))].
Proof.
  intros Hu Hn. step_handler. rewrite Hn. step_handler. rewrite Hu.
  reflexivity.
Qed.

Lemma delete_failed (s : AppState) (u : User) (n : Note) (e : Failure) :
  user s = Some u ->
  selectedNote s = Some n ->
  run (handleNoteDelete true (Failed e)) s
  = Done tt s
      [Confirm "Delete this note?";
       Send (delete_request (id n) (uid u));
       Alert (message e)].
Proof.
  intros Hu Hn. step_handler. rewrite Hn. step_handler. rewrite Hu.
  reflexivity.
Qed.

Lemma delete_declined (s : AppState) (n : Note) (reply : Reply unit) :
  selectedNote s = Some n ->
  run (handleNoteDelete false reply) s
  = Done tt s [Confirm "Delete this note?"].
Proof.
  intros Hn. step_handler. rewrite Hn. reflexivity.
Qed.

(** ** The save action *)

(** C1: with a title that is not blank, a save the store accepts does this.
    While creating (no target note) the insert request leaves, the editor
    is back in [Browsing] and the notes are requested again. While editing
    a selected note the update request leaves with the title, the content
    and the fresh [updated_at], filtered on the note's id and on the
    owner; the editor shows the note with the draft merged in and the
    notes are requested again. *)
Theorem save_success (now : N) (s : AppState) (u : User) :
  user s = Some u ->
  trim (d_title (editNote s)) <> "" ->
  let o := run (handleNoteSave now (Success tt)) s in
  (adding s = true -> selectedNote s = None ->
   completed o = true /\
   requests (outcome_trace o) =
     [mkRequest "notes"
        (Insert [mkNewRow (uid u) (d_title (editNote s))
                          (d_content (editNote s))]) [] None;
      fetch_query (uid u) (search s)] /\
   editor_mode (outcome_state o) = Browsing /\
   outcome_state o = setLoadingNotes true (setAdding false s))
  /\
  (forall n : Note, adding s = false -> selectedNote s = Some n ->
   completed o = true /\
   requests (outcome_trace o) =
     [mkRequest "notes"
        (Update (mkPatch (d_title (editNote s)) (d_content (editNote s)) now))
        [FEq ColId (VNum (id n)); FEq ColUserId (VText (uid u))] None;
      fetch_query (uid u) (search s)] /\
   editor_mode (outcome_state o) = Viewing (merge_draft n (editNote s)) /\
   outcome_state o =
     setLoadingNotes true
       (setSelectedNote (Some (merge_draft n (editNote s))) s)).
Proof.
  intros Hu Ht o. split.
  - intros Ha Hn. subst o. rewrite (save_create_ok now s u Hu Ht Ha).
    cbn [completed outcome_trace outcome_state requests].
    unfold insert_request. rewrite or_empty_id.
    repeat split. unfold editor_mode. simpl. rewrite Hn. reflexivity.
  - intros n Ha Hn. subst o. rewrite (save_update_ok now s u n Hu Ht Ha Hn).
    cbn [completed outcome_trace outcome_state requests].
    unfold update_request. rewrite or_empty_id.
    repeat split. unfold editor_mode. simpl. rewrite Ha. reflexivity.
Qed.

Lemma save_success_witness :
  editor_mode
    (outcome_state (run (handleNoteSave 300 (Success tt)) Sample.creating))
  = Browsing
  /\
  editor_mode
    (outcome_state (run (handleNoteSave 300 (Success tt)) Sample.editing))
  = Viewing (mkNote 7 "alice" " Groceries (week 2) " "milk" 100).
Proof.
  split.
  - apply (proj1 (save_success 300 Sample.creating Sample.alice eq_refl
                    ltac:(vm_compute; discriminate)));
      reflexivity.
  - apply (proj2 (save_success 300 Sample.editing Sample.alice eq_refl
                    ltac:(vm_compute; discriminate)) Sample.groceries);
      reflexivity.
Defined.

(** C2: a draft whose title is empty or made of white space only is not
    saved. No request leaves, the user is told that the title is required,
    and the state (draft, selection, collection, editor mode) is what it
    was. *)
Theorem save_blank_title_rejected (now : N) (reply : Reply unit)
  (s : AppState) :
  all_ws (d_title (editNote s)) = true ->
  let o := run (handleNoteSave now reply) s in
  requests (outcome_trace o) = [] /\
  alerts (outcome_trace o) = ["Title is required."] /\
  outcome_state o = s /\
  editor_mode (outcome_state o) = editor_mode s /\
  editNote (outcome_state o) = editNote s /\
  selectedNote (outcome_state o) = selectedNote s /\
  notes (outcome_state o) = notes s.
Proof.
  intros Hw o. subst o. rewrite (save_blank now reply s Hw).
  cbn [outcome_trace outcome_state requests alerts]. repeat split.
Qed.

Lemma save_blank_title_rejected_witness :
  requests
    (outcome_trace (run (handleNoteSave 300 (Success tt)) Sample.blank_title))
  = [] /\
  editor_mode
    (outcome_state (run (handleNoteSave 300 (Success tt)) Sample.blank_title))
  = Creating.
Proof.
  destruct (save_blank_title_rejected 300 (Success tt) Sample.blank_title
              eq_refl) as (Hr & _ & _ & Hm & _).
  split; [exact Hr | exact Hm].
Defined.

(** C9: the trim is the validation test only. A title with white space
    around it that passes the test reaches the store as typed, in the
    insert request and in the update request alike, and the selection
    takes it as typed too. *)
Theorem save_sends_title_verbatim (now : N) (s : AppState) (u : User) :
  user s = Some u ->
  trim (d_title (editNote s)) <> "" ->
  trim (d_title (editNote s)) <> d_title (editNote s) ->
  let o := run (handleNoteSave now (Success tt)) s in
  let typed := d_title (editNote s) in
  (adding s = true ->
   map sent_titles (requests (outcome_trace o)) = [[typed]; []] /\
   ~ In [trim typed] (map sent_titles (requests (outcome_trace o))))
  /\
  (forall n : Note, adding s = false -> selectedNote s = Some n ->
   map sent_titles (requests (outcome_trace o)) = [[typed]; []] /\
   ~ In [trim typed] (map sent_titles (requests (outcome_trace o))) /\
   option_map title (selectedNote (outcome_state o)) = Some typed).
Proof.
  intros Hu Ht Hneq o typed.
  assert (Hno : ~ In [trim typed] [[typed]; []]).
  { simpl. intros [H | [H | []]]; [|discriminate].
    injection H as H. apply Hneq. symmetry. exact H. }
  split.
  - intros Ha. subst o. rewrite (save_create_ok now s u Hu Ht Ha).
    cbn [outcome_trace requests map]. split; [reflexivity | exact Hno].
  - intros n Ha Hn. subst o. rewrite (save_update_ok now s u n Hu Ht Ha Hn).
    cbn [outcome_trace outcome_state requests map].
    split; [reflexivity | split; [exact Hno | reflexivity]].
Qed.

Lemma save_sends_title_verbatim_witness :
  map sent_titles
    (requests
       (outcome_trace (run (handleNoteSave 300 (Success tt)) Sample.creating)))
  = [[" Plan "]; []]
  /\
  map sent_titles
    (requests
       (outcome_trace (run (handleNoteSave 300 (Success tt)) Sample.editing)))
  = [[" Groceries (week 2) "]; []].
Proof.
  split.
  - apply (proj1 (save_sends_title_verbatim 300 Sample.creating Sample.alice
                    eq_refl ltac:(vm_compute; discriminate)
                    ltac:(vm_compute; discriminate)));
      reflexivity.
  - apply (proj2 (save_sends_title_verbatim 300 Sample.editing Sample.alice
                    eq_refl ltac:(vm_compute; discriminate)
                    ltac:(vm_compute; discriminate)) Sample.groceries);
      reflexivity.
Defined.

(** ** Failed requests *)

(** C5: when the store refuses a create, an update or a delete, the state
    is exactly what it was before the attempt, the refused request is the
    only request sent (no reload of the notes, no second attempt) and the
    failure message is shown. *)
Theorem failed_request_leaves_state (now : N) (s : AppState) (u : User)
  (e : Failure) :
  user s = Some u ->
  (trim (d_title (editNote s)) <> "" -> adding s = true ->
   run (handleNoteSave now (Failed e)) s
   = Done tt s
       [PreventDefault; Send (insert_request (uid u) (editNote s));
        Alert (message e)])
  /\
  (forall n : Note,
   trim (d_title (editNote s)) <> "" -> adding s = false ->
   selectedNote s = Some n ->
   run (handleNoteSave now (Failed e)) s
   = Done tt s
       [PreventDefault;
        Send (update_request now (id n) (uid u) (editNote s));
        Alert (message e)])
  /\
  (forall n : Note,
   selectedNote s = Some n ->
   run (handleNoteDelete true (Failed e)) s
   = Done tt s
       [Confirm "Delete this note?"; Send (delete_request (id n) (uid u));
        Alert (message e)]).
Proof.
  intros Hu. split; [|split].
  - intros Ht Ha. exact (save_create_failed now s u e Hu Ht Ha).
  - intros n Ht Ha Hn. exact (save_update_failed now s u n e Hu Ht Ha Hn).
  - intros n Hn. exact (delete_failed s u n e Hu Hn).
Qed.

Lemma failed_request_leaves_state_witness :
  outcome_state (run (handleNoteSave 300 (Failed Sample.refused)) Sample.creating)
  = Sample.creating
  /\
  alerts
    (outcome_trace
       (run (handleNoteSave 300 (Failed Sample.refused)) Sample.editing))
  = ["permission denied"]
  /\
  requests
    (outcome_trace
       (run (handleNoteDelete true (Failed Sample.refused)) Sample.editing))
  = [delete_request 7 "alice"].
Proof.
  split; [|split].
  - rewrite (proj1 (failed_request_leaves_state 300 Sample.creating
                      Sample.alice Sample.refused eq_refl)
               ltac:(vm_compute; discriminate) eq_refl).
    reflexivity.
  - rewrite (proj1 (proj2 (failed_request_leaves_state 300 Sample.editing
                             Sample.alice Sample.refused eq_refl))
               Sample.groceries ltac:(vm_compute; discriminate)
               eq_refl eq_refl).
    reflexivity.
  - rewrite (proj2 (proj2 (failed_request_leaves_state 300 Sample.editing
                             Sample.alice Sample.refused eq_refl))
               Sample.groceries eq_refl).
    reflexivity.
Defined.

(** ** The delete action *)

(** C7: deleting the note on screen asks for confirmation first. When the
    user accepts and the store deletes, the request was filtered on the
    note's id and on the owner, the selection is empty, the editor is in
    [Browsing] and the notes are requested again. When the user declines,
    no request leaves and the state, still [Viewing] the note, is what it
    was. *)
Theorem delete_viewed_note (s : AppState) (u : User) (n : Note) :
  user s = Some u ->
  selectedNote s = Some n ->
  adding s = false ->
  (let o := run (handleNoteDelete true (Success tt)) s in
   outcome_trace o =
     [Confirm "Delete this note?";
      Send (mkRequest "notes" Delete
              [FEq ColId (VNum (id n)); FEq ColUserId (VText (uid u))] None);
      Send (fetch_query (uid u) (search s))] /\
   selectedNote (outcome_state o) = None /\
   editor_mode (outcome_state o) = Browsing /\
   outcome_state o = setLoadingNotes true (setSelectedNote None s))
  /\
  (forall reply : Reply unit,
   let o := run (handleNoteDelete false reply) s in
   outcome_trace o = [Confirm "Delete this note?"] /\
   requests (outcome_trace o) = [] /\
   outcome_state o = s /\
   editor_mode (outcome_state o) = Viewing n).
Proof.
  intros Hu Hn Ha. split.
  - intros o. subst o. rewrite (delete_ok s u n Hu Hn).
    cbn [outcome_trace outcome_state]. repeat split.
    unfold editor_mode. simpl. rewrite Ha. reflexivity.
  - intros reply o. subst o. rewrite (delete_declined s n reply Hn).
    cbn [outcome_trace outcome_state requests]. repeat split.
    unfold editor_mode. rewrite Ha, Hn. reflexivity.
Qed.

Lemma delete_viewed_note_witness :
  editor_mode
    (outcome_state (run (handleNoteDelete true (Success tt)) Sample.editing))
  = Browsing
  /\
  outcome_state (run (handleNoteDelete false (Success tt)) Sample.editing)
  = Sample.editing.
Proof.
  destruct (delete_viewed_note Sample.editing Sample.alice Sample.groceries
              eq_refl eq_refl eq_refl) as [Hyes Hno].
  split.
  - apply Hyes.
  - apply (Hno (Success tt)).
Defined.

(** C10: with no note selected the delete action does nothing at all: no
    confirmation is asked, no request leaves, and every state cell keeps
    its value. *)
Theorem delete_without_selection (s : AppState) (confirmed : bool)
  (reply : Reply unit) :
  selectedNote s = None ->
  run (handleNoteDelete confirmed reply) s = Done tt s [].
Proof.
  intros Hn. step_handler. rewrite Hn. reflexivity.
Qed.

Lemma delete_without_selection_witness :
  run (handleNoteDelete true (Success tt)) Sample.browsing
  = Done tt Sample.browsing [].
Proof.
  apply (delete_without_selection Sample.browsing true (Success tt)).
  reflexivity.
Defined.

(** ** Loading the notes *)

(** C8: when the request of [fetchNotes] fails the collection becomes
    empty; nothing is shown to the user (no alert) and no further request
    is sent. *)
Theorem load_failure_empties_collection (e : Failure) :
  (forall r st : AppState,
     fetchNotes_resume (Failed e) r st
     = Done tt (setLoadingNotes false (setNotes [] st)) [])
  /\
  (forall (s : AppState) (u : User),
     user s = Some u ->
     let o := run (fetchNotes (Failed e)) s in
     completed o = true /\
     notes (outcome_state o) = [] /\
     alerts (outcome_trace o) = [] /\
     outcome_trace o = [Send (fetch_query (uid u) (search s))]).
Proof.
  split.
  - intros r st. reflexivity.
  - intros s u Hu o. subst o. step_handler. rewrite Hu. simpl.
    repeat split.
Qed.

Lemma load_failure_empties_collection_witness :
  notes
    (outcome_state (run (fetchNotes (Failed Sample.refused)) Sample.editing))
  = [] /\
  outcome_trace (run (fetchNotes (Failed Sample.refused)) Sample.editing)
  = [Send (fetch_query "alice" "gro")].
Proof.
  destruct (proj2 (load_failure_empties_collection Sample.refused)
              Sample.editing Sample.alice eq_refl) as (_ & Hn & _ & Ht).
  split; [exact Hn | exact Ht].
Defined.

(** ** Signing out *)

Lemma logout_run (s : AppState) :
  run handleLogout s
  = Done tt (setSelectedNote None (setNotes [] (setUser None s))) [AuthSignOut].
Proof. reflexivity. Qed.

Lemma signed_out_event_run (s : AppState) :
  run (onAuthStateChange "SIGNED_OUT" None) s
  = Done tt (setSelectedNote None (setNotes [] (setUser None s))) [].
Proof. reflexivity. Qed.

(** C4, as stated, fails: signing out while a new note is being created
    leaves the editor in creating mode with its draft, by the logout
    button and by the signed-out notification alike. *)
Lemma sign_out_keeps_creating_mode :
  let s1 := outcome_state (run handleLogout Sample.creating) in
  let s2 :=
    outcome_state (run (onAuthStateChange "SIGNED_OUT" None) Sample.creating) in
  user Sample.creating = Some Sample.alice /\
  editor_mode s1 <> Browsing /\
  editor_mode s2 <> Browsing /\
  editNote s1 = mkDraft " Plan " "first draft" /\
  editNote s2 = mkDraft " Plan " "first draft".
Proof.
  cbv zeta. rewrite logout_run, signed_out_event_run.
  repeat split; vm_compute; discriminate.
Qed.

(** C4, amended: the logout button and a signed-out notification that
    carries no session clear the same cells. From any state the result has
    no identity, an empty collection and no selection, and shows the
    unauthenticated view. The [adding] flag and the edit buffer keep their
    values, so the editor is in [Browsing] when no note was being created
    and still in creating mode, with its draft, otherwise. *)
Theorem sign_out_clears_session (s : AppState) :
  let s1 := outcome_state (run handleLogout s) in
  let s2 := outcome_state (run (onAuthStateChange "SIGNED_OUT" None) s) in
  s2 = s1 /\
  user s1 = None /\
  notes s1 = [] /\
  selectedNote s1 = None /\
  unauthenticated_view s1 = true /\
  adding s1 = adding s /\
  editNote s1 = editNote s /\
  editor_mode s1 = (if adding s then Creating else Browsing).
Proof.
  cbv zeta. rewrite logout_run, signed_out_event_run.
  cbn [outcome_state]. repeat split.
Qed.

(** ** What a request designates in the store *)

Module StoreFacts.
Import Store.

Lemma prefix_split (t s : string) :
  prefix t s = true <-> exists b, s = (t ++ b)%string.
Proof.
  revert s. induction t as [|c t IH]; intros [|d s]; simpl.
  - split; eauto.
  - split; eauto.
  - split; [discriminate | intros [b Hb]; discriminate].
  - destruct (ascii_dec c d) as [->|Hcd].
    + rewrite IH. split; intros [b Hb]; exists b; congruence.
    + split; [discriminate | intros [b Hb]; congruence].
Qed.

(** [includes] is containment as a contiguous run. *)
Lemma includes_split (t s : string) :
  includes t s = true <-> exists a b, s = (a ++ t ++ b)%string.
Proof.
  induction s as [|d s IH]; cbn [includes].
  - rewrite orb_false_r, prefix_split. split.
    + intros [b Hb]. exists "", b. exact Hb.
    + intros (a & b & Hab). destruct a; [exists b; exact Hab | discriminate].
  - rewrite orb_true_iff, prefix_split, IH. split.
    + intros [[b Hb] | (a & b & Hab)].
      * exists "", b. exact Hb.
      * exists (String d a), b. simpl. congruence.
    + intros (a & b & Hab). destruct a as [|d' a]; simpl in Hab.
      * left. exists b. exact Hab.
      * right. exists a, b. congruence.
Qed.

Lemma like_percent_step (p s : string) :
  like (String "%" p) s
  = like p s ||
    match s with
    | EmptyString => false
    | String _ s' => like (String "%" p) s'
    end.
Proof. destruct s; reflexivity. Qed.

Lemma like_percent_all (s : string) : like "%" s = true.
Proof.
  induction s as [|d s IH]; [reflexivity|].
  rewrite like_percent_step, IH. apply orb_true_r.
Qed.

Lemma like_literal_char (c : ascii) (p s : string) :
  literal_char c = true ->
  like (String c p) s
  = match s with
    | EmptyString => false
    | String d s' => Ascii.eqb d c && like p s'
    end.
Proof.
  unfold literal_char. rewrite negb_true_iff, !orb_false_iff.
  intros [[[H1 H2] H3] _]. simpl. rewrite H1, H2, H3. reflexivity.
Qed.

(** A literal text followed by [%] matches the strings it is a prefix
    of. *)
Lemma like_literal_prefix (t s : string) :
  literal t = true -> like (t ++ "%") s = prefix t s.
Proof.
  revert s. induction t as [|c t IH]; intros s Hl.
  - simpl append. rewrite like_percent_all. destruct s; reflexivity.
  - simpl in Hl. apply andb_true_iff in Hl as [Hc Ht].
    simpl append. rewrite (like_literal_char c _ s Hc).
    destruct s as [|d s]; [reflexivity|]. simpl.
    rewrite (IH s Ht). destruct (ascii_dec c d) as [->|Hcd].
    + rewrite Ascii.eqb_refl. reflexivity.
    + destruct (Ascii.eqb_spec d c) as [->|_]; [contradiction | reflexivity].
Qed.

(** A literal text between two [%] matches the strings that contain it. *)
Lemma like_literal_includes (t s : string) :
  literal t = true -> like ("%" ++ t ++ "%") s = includes t s.
Proof.
  intros Hl. simpl append.
  induction s as [|d s IH].
  - rewrite like_percent_step, (like_literal_prefix t "" Hl). reflexivity.
  - rewrite like_percent_step, (like_literal_prefix t _ Hl), IH. reflexivity.
Qed.

Lemma lower_char_literal (c : ascii) :
  literal_char c = true ->
  literal_char (lower_char c) = true /\
  (if Ascii.eqb c "*" then "%"%char else c) = c.
Proof.
  destruct c as [[] [] [] [] [] [] [] []]; vm_compute; intros H;
    (discriminate H || (split; reflexivity)).
Qed.

Lemma toLowerCase_literal (t : string) :
  literal t = true -> literal (toLowerCase t) = true /\ star_alias t = t.
Proof.
  induction t as [|c t IH]; simpl; [split; reflexivity|].
  intros H. apply andb_true_iff in H as [Hc Ht].
  destruct (lower_char_literal c Hc) as [Hl Hs].
  destruct (IH Ht) as [IH1 IH2]. rewrite Hl, IH1, Hs, IH2. split; reflexivity.
Qed.

Lemma toLowerCase_app (a b : string) :
  toLowerCase (a ++ b) = (toLowerCase a ++ toLowerCase b)%string.
Proof.
  induction a as [|c a IH]; simpl; [reflexivity | rewrite IH; reflexivity].
Qed.

Lemma star_alias_app (a b : string) :
  star_alias (a ++ b) = (star_alias a ++ star_alias b)%string.
Proof.
  induction a as [|c a IH]; simpl; [reflexivity | rewrite IH; reflexivity].
Qed.

(** For a term without [%], [_], backslash or [*], the pattern of
    [fetchNotes] selects the titles that contain the term, whatever the
    case. *)
Lemma ilike_literal (t s : string) :
  literal t = true -> ilike ("%" ++ t ++ "%") s = includes_ci t s.
Proof.
  intros Hl. destruct (toLowerCase_literal t Hl) as [Hlow Hstar].
  unfold ilike, includes_ci.
  rewrite !star_alias_app, Hstar, !toLowerCase_app.
  change (toLowerCase (star_alias "%")) with "%".
  apply like_literal_includes. exact Hlow.
Qed.


Lemma insert_by_perm (le : Note -> Note -> bool) (x : Note) (l : list Note) :
  Permutation (insert_by le x l) (x :: l).
Proof.
  induction l as [|y l IH]; simpl; [reflexivity|].
  destruct (le x y); [reflexivity|].
  rewrite IH. apply perm_swap.
Qed.

Lemma sort_by_perm (le : Note -> Note -> bool) (l : list Note) :
  Permutation (sort_by le l) l.
Proof.
  induction l as [|x l IH]; simpl; [reflexivity|].
  rewrite insert_by_perm, IH. reflexivity.
Qed.

Section Sorting.

Variable le : Note -> Note -> bool.
Hypothesis le_total : forall x y, le x y = false -> le y x = true.

Let R (x y : Note) : Prop := le x y = true.

Lemma insert_by_hd (x a : Note) (l : list Note) :
  R a x -> HdRel R a l -> HdRel R a (insert_by le x l).
Proof.
  intros Hax Hl. destruct l as [|y l]; simpl.
  - constructor. exact Hax.
  - destruct (le x y); constructor; [exact Hax|].
    inversion Hl; assumption.
Qed.

Lemma insert_by_sorted (x : Note) (l : list Note) :
  Sorted R l -> Sorted R (insert_by le x l).
Proof.
  induction 1 as [|y l Hs IH Hhd]; simpl.
  - repeat constructor.
  - destruct (le x y) eqn:Hxy.
    + constructor; [constructor; assumption|]. constructor. exact Hxy.
    + constructor; [exact IH|].
      apply insert_by_hd; [apply le_total; exact Hxy | exact Hhd].
Qed.

Lemma sort_by_sorted (l : list Note) : Sorted R (sort_by le l).
Proof.
  induction l as [|x l IH]; simpl; [constructor|].
  apply insert_by_sorted. exact IH.
Qed.

End Sorting.

Lemma newest_first_sorted (l : list Note) :
  StronglySorted newer_first (sort_by (before ColUpdatedAt false) l).
Proof.
  apply Sorted_StronglySorted.
  - intros x y z Hxy Hyz. unfold newer_first in *. lia.
  - assert (H : Sorted (fun x y => before ColUpdatedAt false x y = true)
                       (sort_by (before ColUpdatedAt false) l)).
    { apply sort_by_sorted. intros x y. unfold before. simpl.
      rewrite N.leb_gt, N.leb_le. lia. }
    induction H as [|x r Hs IH Hhd]; constructor; [exact IH|].
    destruct Hhd as [|y r Hxy]; constructor.
    unfold before in Hxy. simpl in Hxy. apply N.leb_le in Hxy. exact Hxy.
Qed.

(** The rows [fetchNotes] asks for, whatever the term: the rows of the
    table that pass the filters, newest first. *)
Lemma fetch_rows (owner term : string) (tbl : list Note) :
  let rows := rows_of (fetch_query owner term) tbl in
  StronglySorted newer_first rows /\
  Permutation rows (filter (matches (filters (fetch_query owner term))) tbl).
Proof.
  cbv zeta. unfold rows_of. cbn [order fetch_query ordered]. split.
  - apply newest_first_sorted.
  - apply sort_by_perm.
Qed.

(** With the empty term these are the notes of the owner, all of them. *)
Lemma fetch_rows_no_term (owner : string) (tbl : list Note) (n : Note) :
  In n (rows_of (fetch_query owner "") tbl) <-> In n tbl /\ user_id n = owner.
Proof.
  destruct (fetch_rows owner "" tbl) as [_ Hp].
  split.
  - intros H. apply (Permutation_in _ Hp) in H.
    apply filter_In in H as [Hin Hm]. split; [exact Hin|].
    simpl in Hm. rewrite andb_true_r in Hm. apply String.eqb_eq. exact Hm.
  - intros [Hin Ho]. apply (Permutation_in _ (Permutation_sym Hp)).
    apply filter_In. split; [exact Hin|].
    simpl. rewrite andb_true_r. apply String.eqb_eq. exact Ho.
Qed.


(** The pattern language on small inputs. *)
Example like_samples :
  like "a%c" "abbc" = true /\
  like "a_c" "ac" = false /\
  like "a_c" "abc" = true /\
  like "50\%" "50%" = true /\
  like "50\%" "500" = false /\
  ilike "%GRO%" "my groceries" = true /\
  ilike "*min*" "Minutes" = true.
Proof. repeat split. Qed.

(** C3, the code at the failing input: with the term [_] in the search box
    [fetchNotes] sends the pattern [%_%], and the store answers with every
    note of the owner that has a title, although no title contains an
    underscore. *)
Theorem search_term_wildcard :
  requests (outcome_trace (run fetchNotes_begin Sample.searching_underscore))
  = [mkRequest "notes" Select
       [FEq ColUserId (VText "alice"); FILike ColTitle "%_%"]
       (Some (ColUpdatedAt, false))]
  /\
  rows_of (fetch_query "alice" "_") Sample.table
  = [Sample.minutes; Sample.groceries]
  /\
  includes_ci "_" (title Sample.minutes) = false
  /\
  includes_ci "_" (title Sample.groceries) = false.
Proof.
  repeat split.
Qed.

End StoreFacts.

(** ** The debounced search *)

Module DebounceFacts.
Import Debounce.
Local Open Scope nat_scope.

Lemma requests_app (a b : list Effect) :
  requests (a ++ b) = requests a ++ requests b.
Proof.
  induction a as [|e a IH]; simpl; [reflexivity|].
  destruct e; simpl; rewrite IH; reflexivity.
Qed.

(** A change of the term at time [t], before the pending timeout (if any)
    is due: the timeout is replaced by one that is due [delay] after [t]
    and closes over the new term; no request leaves. *)
Lemma step_change (rt : Runtime) (u : User) (t : nat) (v : string) :
  mounted rt = true ->
  user (store rt) = Some u ->
  clock rt <= t ->
  (forall tm, pending rt = Some tm -> t < deadline tm) ->
  v <> search (store rt) ->
  step (t, SearchInput v) rt
  = mkRuntime t (setSearch v (store rt))
      (Some (mkTimeout (t + delay) (setSearch v (store rt)))) true (log rt).
Proof.
  intros Hm Hu Hc Hp Hv.
  unfold step, advance. cbn [fst snd apply_event].
  assert (Hnf : match pending rt with
                | Some tm => if deadline tm <=? t then fire tm rt else rt
                | None => rt
                end = rt).
  { destruct (pending rt) as [tm|] eqn:E; [|reflexivity].
    specialize (Hp tm eq_refl).
    destruct (Nat.leb_spec (deadline tm) t); [lia | reflexivity]. }
  rewrite Hnf. unfold search_input. cbn [mounted store clock log].
  rewrite Hm. cbn [negb].
  destruct (String.eqb_spec v (search (store rt))) as [E|_]; [contradiction|].
  unfold search_effect, run, handleSearchChange, write, outcome_state.
  cbn [user setSearch]. rewrite Hu.
  rewrite (Nat.max_r _ _ Hc). reflexivity.
Qed.

(** A burst of changes after a first one: only the timeout of the last
    change is left, and the log has not grown. *)
Lemma burst_run (st0 : AppState) (u : User) (lg : list Effect) :
  user st0 = Some u ->
  forall (changes : list (nat * string)) (t0 : nat) (v0 : string),
    burst t0 v0 changes ->
    run_events (typing changes)
      (mkRuntime t0 (setSearch v0 st0)
         (Some (mkTimeout (t0 + delay) (setSearch v0 st0))) true lg)
    = mkRuntime (fst (final t0 v0 changes))
        (setSearch (snd (final t0 v0 changes)) st0)
        (Some (mkTimeout (fst (final t0 v0 changes) + delay)
                 (setSearch (snd (final t0 v0 changes)) st0)))
        true lg.
Proof.
  intros Hu changes.
  induction changes as [|[t v] changes IH]; intros t0 v0 Hb.
  - reflexivity.
  - destruct Hb as (Hle & Hlt & Hv & Hb).
    cbn [typing map run_events fst snd final].
    rewrite (step_change _ u t v); cbn [mounted store clock pending log].
    + exact (IH t v Hb).
    + reflexivity.
    + exact Hu.
    + exact Hle.
    + intros tm [= <-]. exact Hlt.
    + exact Hv.
Qed.

(** The timeout fires once the clock reaches its deadline. *)
Lemma advance_fires (t T : nat) (st : AppState) (u : User)
  (lg : list Effect) :
  user st = Some u ->
  t + delay <= T ->
  advance T (mkRuntime t st (Some (mkTimeout (t + delay) st)) true lg)
  = mkRuntime T (setLoadingNotes true st) None true
      (lg ++ [Send (fetch_query (uid u) (search st))]).
Proof.
  intros Hu HT. unfold advance. cbn [pending deadline].
  destruct (Nat.leb_spec (t + delay) T) as [_|H]; [|lia].
  unfold fire. cbn [closure store].
  rewrite (fetchNotes_begin_run st st u Hu).
  cbn [outcome_state outcome_trace clock store pending mounted log].
  rewrite Nat.max_r by (unfold delay in HT; lia). reflexivity.
Qed.

Lemma advance_idle (T : nat) (rt : Runtime) :
  pending rt = None -> log (advance T rt) = log rt /\ pending (advance T rt) = None.
Proof.
  intros Hp. unfold advance. rewrite Hp. cbn [log pending]. auto.
Qed.

Lemma advance_early (t T : nat) (st : AppState) (lg : list Effect) :
  T < t + delay ->
  log (advance T (mkRuntime t st (Some (mkTimeout (t + delay) st)) true lg))
  = lg.
Proof.
  intros HT. unfold advance. cbn [pending deadline].
  destruct (Nat.leb_spec (t + delay) T) as [H|_]; [lia | reflexivity].
Qed.

(** C6: search-term changes that follow one another within 300 ms, each to
    a different term, made by a signed-in user. While they last no load
    is made and the one timeout left is due 300 ms after the last change
    (set anew at each change, not prolonged). Once that time has come
    exactly one load is made, with the last term, and none after it. If
    the component is torn down before that time no load is made at all. *)
Theorem debounce_trailing_load (rt : Runtime) (u : User) (t1 : nat)
  (v1 : string) (rest : list (nat * string)) :
  mounted rt = true ->
  user (store rt) = Some u ->
  clock rt <= t1 ->
  (forall tm, pending rt = Some tm -> t1 < deadline tm) ->
  v1 <> search (store rt) ->
  burst t1 v1 rest ->
  let rt' := run_events (typing ((t1, v1) :: rest)) rt in
  let last_time := fst (final t1 v1 rest) in
  let last_term := snd (final t1 v1 rest) in
  (loads rt' = loads rt /\
   pending rt'
   = Some (mkTimeout (last_time + 300) (setSearch last_term (store rt))))
  /\
  (forall T T' : nat,
     last_time + 300 <= T ->
     loads (advance T rt') = loads rt ++ [fetch_query (uid u) last_term] /\
     loads (advance T' (advance T rt'))
     = loads rt ++ [fetch_query (uid u) last_term])
  /\
  (forall T T' : nat,
     T < last_time + 300 ->
     loads (advance T rt') = loads rt /\
     loads (advance T' (unmount (advance T rt'))) = loads rt).
Proof.
  intros Hm Hu Hc Hp Hv Hb rt' last_time last_term.
  assert (E : rt' = mkRuntime last_time (setSearch last_term (store rt))
                      (Some (mkTimeout (last_time + delay)
                               (setSearch last_term (store rt))))
                      true (log rt)).
  { subst rt'. cbn [typing map run_events fst snd].
    rewrite (step_change rt u t1 v1 Hm Hu Hc Hp Hv).
    exact (burst_run (store rt) u (log rt) Hu rest t1 v1 Hb). }
  change 300 with delay. rewrite E. split; [|split].
  - split; reflexivity.
  - intros T T' HT.
    rewrite (advance_fires last_time T (setSearch last_term (store rt)) u
               (log rt) Hu HT).
    unfold loads.
    split.
    + cbn [log]. rewrite requests_app. reflexivity.
    + match goal with
      | |- context [advance T' ?r] =>
          destruct (advance_idle T' r eq_refl) as [Hl _]; rewrite Hl
      end.
      cbn [log]. rewrite requests_app. reflexivity.
  - intros T T' HT. unfold loads. split.
    + rewrite (advance_early last_time T _ (log rt) HT). reflexivity.
    + match goal with
      | |- context [advance T' ?r] =>
          destruct (advance_idle T' r eq_refl) as [Hl _]; rewrite Hl
      end.
      unfold unmount. cbn [log].
      rewrite (advance_early last_time T _ (log rt) HT). reflexivity.
Qed.

Lemma debounce_trailing_load_witness :
  loads (advance 440 (run_events (typing Sample.keystrokes) Sample.idle))
  = [fetch_query "alice" "gro"]
  /\
  loads (advance 900 (unmount (advance 300
           (run_events (typing Sample.keystrokes) Sample.idle))))
  = [].
Proof.
  destruct (debounce_trailing_load Sample.idle Sample.alice 10 "g"
              [(50, "gr"); (140, "gro")]
              eq_refl eq_refl
              ltac:(cbn; lia)
              ltac:(intros tm H; discriminate H)
              ltac:(cbn; discriminate)
              ltac:(cbn; unfold delay; repeat split; (lia || discriminate)))
    as (_ & Hfire & Hdown).
  split.
  - exact (proj1 (Hfire 440 0 ltac:(cbn; lia))).
  - exact (proj2 (Hdown 300 900 ltac:(cbn; lia))).
Defined.

End DebounceFacts.

(** ** Reachable states *)

Ltac unfold_handlers :=
  cbv [run bind ret read write emit deref spawn negb
       fetchNotes fetchNotes_begin fetchNotes_resume
       handleNoteSelect handleNoteAddClick handleNoteEditChange
       handleSearchChange handleNoteSave handleNoteDelete handleLogout
       onAuthStateChange] in *.

Lemma initial_no_target : creating_has_no_target initial.
Proof. intros H. reflexivity. Qed.

(** Every handler keeps [creating_has_no_target]: the creating mode of the
    save action never has a target note. *)
Lemma handlers_keep_no_target (s : AppState) :
  creating_has_no_target s ->
  (forall note, creating_has_no_target
                  (outcome_state (run (handleNoteSelect note) s))) /\
  creating_has_no_target (outcome_state (run handleNoteAddClick s)) /\
  (forall name value,
     creating_has_no_target
       (outcome_state (run (handleNoteEditChange name value) s))) /\
  (forall value,
     creating_has_no_target (outcome_state (run (handleSearchChange value) s))) /\
  (forall now reply,
     creating_has_no_target (outcome_state (run (handleNoteSave now reply) s))) /\
  (forall confirmed reply,
     creating_has_no_target
       (outcome_state (run (handleNoteDelete confirmed reply) s))) /\
  (forall reply,
     creating_has_no_target (outcome_state (run (fetchNotes reply) s))) /\
  creating_has_no_target (outcome_state (run handleLogout s)) /\
  (forall event session,
     creating_has_no_target
       (outcome_state (run (onAuthStateChange event session) s))).
Proof.
  unfold creating_has_no_target. intros Hs.
  split; [|split; [|split; [|split; [|split; [|split; [|split; [|split]]]]]]];
    intros; unfold_handlers.
  - discriminate H.
  - reflexivity.
  - cbn in *. auto.
  - cbn in *. auto.
  - destruct (is_empty (trim (d_title (editNote s)))); [cbn in *; auto|].
    destruct (adding s) eqn:Ha.
    + destruct (user s) eqn:Hu, reply; cbn in *; rewrite ?Hu in *;
        cbn in *; try discriminate H; auto.
    + destruct (selectedNote s), (user s) eqn:Hu, reply; cbn in *;
        rewrite ?Hu in *; cbn in *; congruence.
  - destruct (selectedNote s) eqn:Hn; [|cbn in *; congruence].
    destruct confirmed, (user s) eqn:Hu, reply; cbn in *; rewrite ?Hu in *;
      cbn in *; intuition congruence.
  - destruct (user s), reply; cbn in *; auto.
  - reflexivity.
  - destruct (String.eqb event "SIGNED_OUT"); cbn in *; auto.
Qed.

(** * Further properties *)

(** ** Loading *)

(** X1: a load the store answers puts the rows received in the collection,
    in the order received, in place of the former ones; the selection
    stays as it was, whether or not the selected note is among the rows. *)
Theorem load_success_replaces_collection (s : AppState) (u : User)
  (data : list Note) :
  user s = Some u ->
  let o := run (fetchNotes (Success data)) s in
  completed o = true /\
  outcome_trace o = [Send (fetch_query (uid u) (search s))] /\
  notes (outcome_state o) = data /\
  loadingNotes (outcome_state o) = false /\
  selectedNote (outcome_state o) = selectedNote s /\
  editor_mode (outcome_state o) = editor_mode s.
Proof.
  intros Hu o. subst o. step_handler. rewrite Hu. cbn. repeat split.
Qed.

Lemma load_success_replaces_collection_witness :
  notes (outcome_state (run (fetchNotes (Success [Sample.minutes])) Sample.editing))
  = [Sample.minutes]
  /\
  selectedNote
    (outcome_state (run (fetchNotes (Success [Sample.minutes])) Sample.editing))
  = Some Sample.groceries.
Proof.
  destruct (load_success_replaces_collection Sample.editing Sample.alice
              [Sample.minutes] eq_refl) as (_ & _ & Hn & _ & Hs & _).
  split; [exact Hn | exact Hs].
Defined.

Module QueryFacts.
Import Store StoreFacts.


Lemma owner_filter (owner term : string) (n : Note) :
  matches (filters (fetch_query owner term)) n = true ->
  user_id n = owner.
Proof.
  unfold fetch_query. cbn [filters matches forallb holds cell value_eqb].
  intros H. apply andb_true_iff in H as [H _]. apply String.eqb_eq. exact H.
Qed.

(** X3: whatever the search term, pattern characters included, the rows a
    load asks for are rows of the table that belong to the owner, and
    they come newest first. *)
Theorem fetch_rows_owned_sorted (owner term : string) (tbl : list Note) :
  let rows := rows_of (fetch_query owner term) tbl in
  StronglySorted newer_first rows /\
  Forall (fun n => user_id n = owner /\ In n tbl) rows /\
  length rows <= length tbl.
Proof.
  cbv zeta. destruct (fetch_rows owner term tbl) as [Hs Hp].
  split; [exact Hs|]. split.
  - apply Forall_forall. intros n Hn.
    apply (Permutation_in _ Hp) in Hn. apply filter_In in Hn as [Hin Hm].
    split; [exact (owner_filter owner term n Hm) | exact Hin].
  - rewrite (Permutation_length Hp). apply filter_length_le.
Qed.

(** X4: with the empty term the rows asked for are the rows of the owner,
    each as often as the table has it. *)
Theorem fetch_rows_no_term_exact (owner : string) (tbl : list Note) :
  Permutation (rows_of (fetch_query owner "") tbl)
              (filter (fun n => String.eqb (user_id n) owner) tbl).
Proof.
  destruct (fetch_rows owner "" tbl) as [_ Hp].
  rewrite Hp. erewrite filter_ext; [reflexivity|].
  intros n. simpl. apply andb_true_r.
Qed.

Lemma lower_star_char (c : ascii) :
  lower_char (if Ascii.eqb c "*" then "%"%char else c)
  = (if Ascii.eqb (lower_char c) "*" then "%"%char else lower_char c).
Proof.
  destruct c as [[] [] [] [] [] [] [] []]; vm_compute; reflexivity.
Qed.

Lemma lower_star (t : string) :
  toLowerCase (star_alias t) = star_alias (toLowerCase t).
Proof.
  induction t as [|c t IH]; simpl; [reflexivity|].
  rewrite lower_star_char, IH. reflexivity.
Qed.

Lemma lower_empty (t t' : string) :
  toLowerCase t = toLowerCase t' -> is_empty t = is_empty t'.
Proof. destruct t, t'; simpl; congruence. Qed.



End QueryFacts.

(** ** Editing *)

Lemma merge_own_draft (n : Note) :
  merge_draft n (mkDraft (title n) (content n)) = n.
Proof. destruct n; reflexivity. Qed.

(** X6: selecting a note shows it with a draft that copies its title and
    content, whatever was on screen before; saving at once, the store
    accepting, sends that very title and content and leaves the selection
    equal to the note. *)
Theorem select_then_save_round_trip (s : AppState) (u : User) (n : Note)
  (now : N) :
  user s = Some u ->
  trim (title n) <> "" ->
  let s1 := then_run s (handleNoteSelect n) in
  let o := run (handleNoteSave now (Success tt)) s1 in
  editor_mode s1 = Viewing n /\
  editNote s1 = mkDraft (title n) (content n) /\
  requests (outcome_trace o) =
    [mkRequest "notes" (Update (mkPatch (title n) (content n) now))
       [FEq ColId (VNum (id n)); FEq ColUserId (VText (uid u))] None;
     fetch_query (uid u) (search s)] /\
  selectedNote (outcome_state o) = Some n /\
  editor_mode (outcome_state o) = Viewing n.
Proof.
  intros Hu Ht s1 o.
  assert (Ho : o = Done tt
                 (setLoadingNotes true
                    (setSelectedNote
                       (Some (merge_draft n (mkDraft (title n) (content n)))) s1))
                 [PreventDefault;
                  Send (update_request now (id n) (uid u)
                          (mkDraft (title n) (content n)));
                  Send (fetch_query (uid u) (search s))]).
  { subst o. apply (save_update_ok now s1 u n); [exact Hu | exact Ht | | ];
      reflexivity. }
  rewrite Ho, merge_own_draft.
  cbn [outcome_trace outcome_state requests].
  unfold update_request. rewrite or_empty_id. repeat split.
Qed.

Lemma select_then_save_round_trip_witness :
  selectedNote
    (outcome_state
       (run (handleNoteSave 300 (Success tt))
            (then_run Sample.creating (handleNoteSelect Sample.groceries))))
  = Some Sample.groceries.
Proof.
  apply (select_then_save_round_trip Sample.creating Sample.alice
           Sample.groceries 300 eq_refl).
  intros H. vm_compute in H. discriminate H.
Defined.

(** X7: the whole of a creation. From any state of a signed-in user:
    "Add Note", a title that is not blank and a content typed, submit, the
    store accepting. The insert carries the owner and exactly what was
    typed, the notes are asked for again with the search term in force,
    and the editor is back in [Browsing]. *)
Theorem create_flow (s : AppState) (u : User) (t c : string) (now : N) :
  user s = Some u ->
  trim t <> "" ->
  let s1 := then_run s handleNoteAddClick in
  let s2 := then_run s1 (handleNoteEditChange FTitle t) in
  let s3 := then_run s2 (handleNoteEditChange FContent c) in
  let o := run (handleNoteSave now (Success tt)) s3 in
  editor_mode s1 = Creating /\
  completed o = true /\
  requests (outcome_trace o) =
    [mkRequest "notes" (Insert [mkNewRow (uid u) t c]) [] None;
     fetch_query (uid u) (search s)] /\
  editor_mode (outcome_state o) = Browsing /\
  notes (outcome_state o) = notes s.
Proof.
  intros Hu Ht s1 s2 s3 o.
  assert (Ho : o = Done tt (setLoadingNotes true (setAdding false s3))
                 [PreventDefault; Send (insert_request (uid u) (editNote s3));
                  Send (fetch_query (uid u) (search s3))]).
  { subst o. apply (save_create_ok now s3 u); [exact Hu | exact Ht | ];
      reflexivity. }
  rewrite Ho. cbn [outcome_trace outcome_state requests completed].
  unfold insert_request. rewrite or_empty_id. repeat split.
Qed.

Lemma create_flow_witness :
  editor_mode
    (outcome_state
       (run (handleNoteSave 300 (Success tt))
          (then_run
             (then_run (then_run Sample.editing handleNoteAddClick)
                       (handleNoteEditChange FTitle "Plan"))
             (handleNoteEditChange FContent ""))))
  = Browsing.
Proof.
  apply (create_flow Sample.editing Sample.alice "Plan" "" 300 eq_refl).
  intros H. vm_compute in H. discriminate H.
Defined.

(** X8: the whole of an edit. A note selected, a new title typed, submit,
    the store accepting: the update is filtered on the id of the note and
    on the owner and carries the new title with the content of the note;
    the selection shows the new title with the id, the owner and the old
    date of the note, and the list is as it was until the reload
    answers. *)
Theorem edit_flow (s : AppState) (u : User) (n : Note) (t : string) (now : N) :
  user s = Some u ->
  trim t <> "" ->
  let s1 := then_run s (handleNoteSelect n) in
  let s2 := then_run s1 (handleNoteEditChange FTitle t) in
  let o := run (handleNoteSave now (Success tt)) s2 in
  completed o = true /\
  requests (outcome_trace o) =
    [mkRequest "notes" (Update (mkPatch t (content n) now))
       [FEq ColId (VNum (id n)); FEq ColUserId (VText (uid u))] None;
     fetch_query (uid u) (search s)] /\
  selectedNote (outcome_state o)
  = Some (mkNote (id n) (user_id n) t (content n) (updated_at n)) /\
  notes (outcome_state o) = notes s.
Proof.
  intros Hu Ht s1 s2 o.
  assert (Ho : o = Done tt
                 (setLoadingNotes true
                    (setSelectedNote (Some (merge_draft n (editNote s2))) s2))
                 [PreventDefault;
                  Send (update_request now (id n) (uid u) (editNote s2));
                  Send (fetch_query (uid u) (search s2))]).
  { subst o. apply (save_update_ok now s2 u n); [exact Hu | exact Ht | | ];
      reflexivity. }
  rewrite Ho. cbn [outcome_trace outcome_state requests completed].
  unfold update_request. rewrite or_empty_id. repeat split.
Qed.

Lemma edit_flow_witness :
  selectedNote
    (outcome_state
       (run (handleNoteSave 300 (Success tt))
          (then_run (then_run Sample.browsing (handleNoteSelect Sample.minutes))
                    (handleNoteEditChange FTitle "Minutes, May"))))
  = Some (mkNote 8 "alice" "Minutes, May" "" 250).
Proof.
  apply (edit_flow Sample.browsing Sample.alice Sample.minutes "Minutes, May"
           300 eq_refl).
  intros H. vm_compute in H. discriminate H.
Defined.


(** X10: typing in one input of the editor leaves the other input alone.
    A title and a content typed in either order give the same state, in
    which only the draft differs from before; typing again in an input
    overwrites what it held. *)
Theorem edit_change_fields (s : AppState) (t t' c : string) :
  let type_in f v s := then_run s (handleNoteEditChange f v) in
  type_in FContent c (type_in FTitle t s) = setEditNote (mkDraft t c) s /\
  type_in FTitle t (type_in FContent c s) = setEditNote (mkDraft t c) s /\
  type_in FTitle t (type_in FTitle t' s)
  = setEditNote (mkDraft t (d_content (editNote s))) s /\
  type_in FContent c s = setEditNote (mkDraft (d_title (editNote s)) c) s.
Proof.
  cbv zeta. repeat split.
Qed.

(** X11: a submit with a title that is not blank, when no note is being
    created and none is selected, or when nobody is signed in, throws
    before anything is sent: the state is as before and the trace has no
    request. *)
Theorem save_without_target_throws (s : AppState) (now : N)
  (reply : Reply unit) :
  trim (d_title (editNote s)) <> "" ->
  (adding s = false -> selectedNote s = None ->
   run (handleNoteSave now reply) s
   = Thrown (TypeError "selectedNote.id") s [PreventDefault])
  /\
  (adding s = true -> user s = None ->
   run (handleNoteSave now reply) s
   = Thrown (TypeError "user.id") s [PreventDefault]).
Proof.
  intros Ht. apply is_empty_false in Ht. split.
  - intros Ha Hn. step_handler. rewrite Ht, Ha, Hn. reflexivity.
  - intros Ha Hu. step_handler. rewrite Ht, Ha, Hu. reflexivity.
Qed.

Lemma save_without_target_throws_witness :
  let after_create :=
    outcome_state (run (handleNoteSave 300 (Success tt)) Sample.creating) in
  run (handleNoteSave 301 (Success tt)) after_create
  = Thrown (TypeError "selectedNote.id") after_create [PreventDefault].
Proof.
  cbv zeta.
  apply (proj1 (save_without_target_throws
                  (outcome_state
                     (run (handleNoteSave 300 (Success tt)) Sample.creating))
                  301 (Success tt)
                  ltac:(intros H; vm_compute in H; discriminate H)));
    reflexivity.
Defined.

(** ** What the handlers leave alone *)

(** X12: saving, deleting and loading never touch the identity, the search
    term, the draft, the theme or the form of the sign-in page, whatever
    the store answers and whether they complete or throw. In particular a
    successful save does not empty the draft. *)
Theorem requests_keep_session_and_draft (s : AppState) :
  let kept (s' : AppState) :=
    user s' = user s /\
    search s' = search s /\
    editNote s' = editNote s /\
    theme s' = theme s /\
    authView s' = authView s in
  (forall now reply, kept (perform s (DoSave now reply))) /\
  (forall confirmed reply, kept (perform s (DoDelete confirmed reply))) /\
  (forall reply, kept (perform s (DoFetch reply))).
Proof.
  cbv zeta. split; [|split]; intros; cbn [perform]; unfold_handlers.
  - destruct (is_empty (trim (d_title (editNote s)))); [cbn; auto 6|].
    destruct (adding s), (selectedNote s), (user s) eqn:Hu, reply; cbn;
      rewrite ?Hu; cbn; auto 6.
  - destruct (selectedNote s); [|cbn; auto 6].
    destruct confirmed, (user s) eqn:Hu, reply; cbn; rewrite ?Hu; cbn;
      auto 6.
  - destruct (user s) eqn:Hu, reply; cbn; rewrite ?Hu; auto 6.
Qed.

(** ** Reachable states *)

Lemma perform_keeps_no_target (s : AppState) (a : Action) :
  creating_has_no_target s -> creating_has_no_target (perform s a).
Proof.
  intros Hs.
  destruct (handlers_keep_no_target s Hs)
    as (Hsel & Hadd & Hedit & Hsearch & Hsave & Hdel & Hfetch & Hout & Hev).
  destruct a; cbn [perform]; auto;
    unfold creating_has_no_target in *;
    cbv [run bind read write ret toggleTheme switchAuthView getUser
         handleAuth handleSignIn handleSignUp];
    try destruct (authView s); try destruct reply; try destruct found;
    cbn; exact Hs.
Qed.


(** ** Signing in *)

(** X14: submitting the form makes one call to the authentication client,
    [signInWithPassword] on the sign-in form and [signUp] on the sign-up
    form, with the address and password typed. It never sets the
    identity. A refusal is shown in an alert and changes nothing; an
    acceptance leaves the sign-in form on screen, with the invitation to
    log in after a sign-up. *)
Theorem auth_form_submit (email password : string) (reply : Reply unit)
  (s : AppState) :
  let res := handleAuth email password reply s s in
  auth_calls (snd res)
  = [match authView s with
     | SignInView => SignInWithPassword email password
     | SignUpView => SignUp email password
     end] /\
  user (fst res) = user s /\
  (forall e, reply = Failed e ->
     fst res = s /\ In (Local (Alert (message e))) (snd res)) /\
  (forall x, reply = Success x ->
     fst res = setAuthView SignInView s /\
     (authView s = SignUpView ->
      In (Local (Alert "Sign up successful, now you can log in.")) (snd res)) /\
     (authView s = SignInView ->
      forall m, ~ In (Local (Alert m)) (snd res))).
Proof.
  cbv zeta. unfold handleAuth, handleSignIn, handleSignUp.
  destruct (authView s) eqn:Hv, reply as [x|e]; cbn [fst snd auth_calls];
    (split; [reflexivity|]); (split; [reflexivity|]); split.
  all: try solve [intros e0 He; discriminate He].
  all: try solve [intros e0 [= <-]; split; [reflexivity | simpl; auto 6]].
  all: intros x0 _; (split; [reflexivity|]); split.
  all: try solve [intros Hd; discriminate Hd].
  - intros _ m Hin. simpl in Hin.
    repeat (destruct Hin as [Hin|Hin]; [discriminate Hin|]). exact Hin.
  - intros _. simpl. auto 6.
Qed.

(** X15: when the session-change callback brings a session, whatever the
    event, the user of the session becomes the identity, the page is the
    notes page, and the effect on [user] asks for the notes of that user
    with the search term in force. *)
Theorem session_brings_notes (s : AppState) (event : string) (sess : Session) :
  let s1 := then_run s (onAuthStateChange event (Some sess)) in
  let o := run user_effect s1 in
  user s1 = Some (s_user sess) /\
  (exists sb main, App s1 = NotesPage sb main) /\
  completed o = true /\
  outcome_trace o = [Send (fetch_query (uid (s_user sess)) (search s))].
Proof.
  cbv zeta. unfold then_run. unfold_handlers. cbv [user_effect].
  destruct (String.eqb event "SIGNED_OUT"); cbn;
    (split; [reflexivity|]); (split; [eauto|]); split; reflexivity.
Qed.

(** X16: only the ['SIGNED_OUT'] event empties the collection and the
    selection. Any other event sets the identity to the user of the
    session, or to none when there is no session, and keeps the notes and
    the selection in the state. *)
Theorem other_events_keep_notes (s : AppState) (event : string)
  (session : option Session) :
  event <> "SIGNED_OUT" ->
  let s1 := then_run s (onAuthStateChange event session) in
  s1 = setUser (option_map s_user session) s /\
  notes s1 = notes s /\
  selectedNote s1 = selectedNote s.
Proof.
  intros He. cbv zeta. unfold then_run. unfold_handlers.
  destruct (String.eqb_spec event "SIGNED_OUT") as [E|_]; [contradiction|].
  cbn. repeat split.
Qed.

Lemma other_events_keep_notes_witness :
  notes (then_run Sample.editing (onAuthStateChange "TOKEN_REFRESHED" None))
  = [Sample.minutes; Sample.groceries]
  /\
  user (then_run Sample.editing (onAuthStateChange "TOKEN_REFRESHED" None))
  = None.
Proof.
  destruct (other_events_keep_notes Sample.editing "TOKEN_REFRESHED" None
              ltac:(discriminate)) as (Hs & Hn & _).
  split; [exact Hn | rewrite Hs; reflexivity].
Defined.

(** X17: a reply to a load that arrives after the logout is stored all
    the same: signing out does not call off a load under way. The rows
    are not on the sign-in page, but they are in the list of the notes
    page of the next user to sign in, until that user's own load is
    answered. *)
Theorem late_reply_survives_logout (s : AppState) (u : User)
  (data : list Note) (sess : Session) :
  user s = Some u ->
  let s1 := then_run s fetchNotes_begin in
  let s2 := then_run s1 handleLogout in
  let s3 := outcome_state (fetchNotes_resume (Success data) s s2) in
  let s4 := then_run s3 (onAuthStateChange "SIGNED_IN" (Some sess)) in
  let s5 := then_run s4 user_effect in
  notes s2 = [] /\
  user s3 = None /\
  notes s3 = data /\
  titles_on (App s3) = [] /\
  user s5 = Some (s_user sess) /\
  exists main, App s5 = NotesPage (Sidebar s5) main /\
               map item_title (items (Sidebar s5)) = map title data.
Proof.
  intros Hu. cbv zeta. unfold then_run. unfold_handlers. cbv [user_effect].
  rewrite Hu. cbn. repeat split.
  eexists. split; [reflexivity|].
  rewrite map_map. reflexivity.
Qed.

Lemma late_reply_survives_logout_witness :
  map item_title
    (items
       (Sidebar
          (then_run
             (then_run
                (outcome_state
                   (fetchNotes_resume (Success [Sample.groceries])
                      Sample.browsing
                      (then_run (then_run Sample.browsing fetchNotes_begin)
                                handleLogout)))
                (onAuthStateChange "SIGNED_IN"
                   (Some (mkSession (mkUser "bob")))))
             user_effect)))
  = ["Groceries"].
Proof.
  destruct (late_reply_survives_logout Sample.browsing Sample.alice
              [Sample.groceries] (mkSession (mkUser "bob")) eq_refl)
    as (_ & _ & _ & _ & _ & main & _ & Ht).
  exact Ht.
Defined.

(** ** The page *)

(** X18: the delete button is on the page only for a signed-in user with a
    note selected and no note being created; clicking it then always
    opens the confirmation first and never throws. *)
Theorem delete_button_asks_first (s : AppState) :
  delete_offered (App s) = true ->
  exists u n,
    user s = Some u /\ selectedNote s = Some n /\ adding s = false /\
    forall confirmed reply,
      completed (run (handleNoteDelete confirmed reply) s) = true /\
      hd_error (outcome_trace (run (handleNoteDelete confirmed reply) s))
      = Some (Confirm "Delete this note?").
Proof.
  unfold App, delete_offered, NoteEditor.
  destruct (user s) as [u|] eqn:Hu; [|discriminate].
  destruct (adding s) eqn:Ha; [simpl; discriminate|].
  destruct (selectedNote s) as [n|] eqn:Hn; [|discriminate].
  intros _. exists u, n. repeat split.
  - destruct confirmed;
      [destruct reply as [[]|e];
       [rewrite (delete_ok s u n Hu Hn) | rewrite (delete_failed s u n e Hu Hn)]
      | rewrite (delete_declined s n reply Hn)]; reflexivity.
  - destruct confirmed;
      [destruct reply as [[]|e];
       [rewrite (delete_ok s u n Hu Hn) | rewrite (delete_failed s u n e Hu Hn)]
      | rewrite (delete_declined s n reply Hn)]; reflexivity.
Qed.

Lemma delete_button_asks_first_witness :
  exists u n,
    user Sample.editing = Some u /\ selectedNote Sample.editing = Some n /\
    adding Sample.editing = false /\
    forall confirmed reply,
      completed (run (handleNoteDelete confirmed reply) Sample.editing) = true /\
      hd_error
        (outcome_trace (run (handleNoteDelete confirmed reply) Sample.editing))
      = Some (Confirm "Delete this note?").
Proof.
  apply (delete_button_asks_first Sample.editing). reflexivity.
Defined.

Lemma highlighted_none (l : list Note) (k : N) :
  ~ In k (map id l) ->
  filter item_highlighted
    (map (fun note => mkItem (id note) (title note) (N.eqb k (id note))) l)
  = [].
Proof.
  induction l as [|x l IH]; simpl; [reflexivity|].
  intros Hk. destruct (N.eqb_spec k (id x)) as [E|_].
  - exfalso. apply Hk. left. symmetry. exact E.
  - simpl. apply IH. intros Hin. apply Hk. right. exact Hin.
Qed.

Lemma highlighted_once (l : list Note) (k : N) :
  NoDup (map id l) ->
  In k (map id l) ->
  length
    (filter item_highlighted
       (map (fun note => mkItem (id note) (title note) (N.eqb k (id note))) l))
  = 1.
Proof.
  induction l as [|x l IH]; simpl; [contradiction|].
  intros Hnd [Hx | Hin]; inversion Hnd as [|? ? Hnot Hnd']; subst.
  - rewrite N.eqb_refl. simpl. rewrite (highlighted_none l (id x) Hnot).
    reflexivity.
  - destruct (N.eqb_spec k (id x)) as [E|_].
    + exfalso. apply Hnot. rewrite <- E. exact Hin.
    + simpl. apply IH; assumption.
Qed.

(** X19: the list of the side bar has one entry for each note of the
    collection, in the same order. An entry is highlighted when its id is
    that of the selection: with no selection none is; when the ids of the
    collection are distinct and the selected note is in it, exactly one
    is, and it stays so when the title of the selection has been edited. *)
Theorem sidebar_highlights_selection (s : AppState) :
  let shown := items (Sidebar s) in
  map item_key shown = map id (notes s) /\
  map item_title shown = map title (notes s) /\
  (selectedNote s = None -> filter item_highlighted shown = []) /\
  (forall n,
     selectedNote s = Some n ->
     NoDup (map id (notes s)) ->
     In (id n) (map id (notes s)) ->
     length (filter item_highlighted shown) = 1 /\
     map item_key (filter item_highlighted shown) = [id n]).
Proof.
  cbv zeta. unfold Sidebar. cbn [items]. unfold sidebar_item.
  split; [rewrite map_map; reflexivity|].
  split; [rewrite map_map; reflexivity|]. split.
  - intros Hn. rewrite Hn. induction (notes s) as [|x l IH]; simpl; auto.
  - intros n Hn Hnd Hin. rewrite Hn.
    pose proof (highlighted_once (notes s) (id n) Hnd Hin) as Hone.
    split; [exact Hone|].
    destruct (filter item_highlighted _) as [|i [|j r]] eqn:Hf;
      try discriminate Hone.
    assert (Hi : In i (filter item_highlighted
                   (map (fun note => mkItem (id note) (title note)
                                       (N.eqb (id n) (id note))) (notes s))))
      by (rewrite Hf; left; reflexivity).
    apply filter_In in Hi as [Hi Hh]. apply in_map_iff in Hi as (x & <- & _).
    simpl in Hh. apply N.eqb_eq in Hh. simpl. rewrite Hh. reflexivity.
Qed.

Lemma sidebar_highlights_selection_witness :
  map item_key (filter item_highlighted (items (Sidebar Sample.editing)))
  = [7%N].
Proof.
  apply (proj2 (proj2 (proj2 (sidebar_highlights_selection Sample.editing)))
           Sample.groceries eq_refl).
  - repeat constructor; simpl; intuition discriminate.
  - simpl. auto.
Defined.

(** X20: the page follows the identity and the editor mode. Without an
    identity it is the sign-in page and shows no title of a note,
    whatever the collection holds. With one, the placeholder is shown
    exactly in [Browsing]; while a note is created the form says "Create",
    has no delete button and the add button is disabled; for a selected
    note it says "Save" and has the delete button. The form shows the
    draft. *)
Theorem page_follows_mode (s : AppState) :
  (user s = None -> App s = AuthPage (AuthForm s) /\ titles_on (App s) = []) /\
  (forall u, user s = Some u ->
     exists main,
       App s = NotesPage (Sidebar s) main /\
       match editor_mode s with
       | Browsing => exists text, main = Placeholder text
       | Creating =>
           main = EditorPane
                    (mkEditor (d_title (editNote s)) (d_content (editNote s))
                              "Create" false) /\
           add_disabled (Sidebar s) = true
       | Viewing _ =>
           main = EditorPane
                    (mkEditor (d_title (editNote s)) (d_content (editNote s))
                              "Save" true) /\
           add_disabled (Sidebar s) = false
       end).
Proof.
  unfold App, editor_mode, NoteEditor, Sidebar. split.
  - intros Hu. rewrite Hu. split; reflexivity.
  - intros u Hu. rewrite Hu. eexists. split; [reflexivity|].
    cbn [add_disabled].
    destruct (adding s); [split; reflexivity|].
    destruct (selectedNote s); [split; reflexivity | eauto].
Qed.

Lemma page_follows_mode_witness :
  exists main,
    App Sample.creating = NotesPage (Sidebar Sample.creating) main /\
    main = EditorPane (mkEditor " Plan " "first draft" "Create" false) /\
    add_disabled (Sidebar Sample.creating) = true.
Proof.
  exact (proj2 (page_follows_mode Sample.creating) Sample.alice eq_refl).
Defined.

(** ** The debounced search, beyond one burst *)

Module PaceFacts.
Import Debounce DebounceFacts Pace.
Local Open Scope nat_scope.

Lemma spaced_run (u : User) :
  forall (changes : list (nat * string)) (t0 : nat) (st : AppState)
         (lg : list Effect) (T : nat),
    user st = Some u ->
    spaced t0 (search st) changes ->
    fst (final t0 (search st) changes) + delay <= T ->
    loads (advance T
             (run_events (typing changes)
                (mkRuntime t0 st (Some (mkTimeout (t0 + delay) st)) true lg)))
    = requests lg ++
      map (fetch_query (uid u)) (search st :: map snd changes).
Proof.
  induction changes as [|[t v] rest IH]; intros t0 st lg T Hu Hs HT.
  - cbn [typing map run_events final fst] in *.
    rewrite (advance_fires t0 T st u lg Hu HT).
    unfold loads. cbn [log]. rewrite requests_app. reflexivity.
  - destruct Hs as (Hgap & Hv & Hs).
    cbn [typing map run_events final fst snd] in *.
    unfold step. cbn [fst snd apply_event].
    rewrite (advance_fires t0 t st u lg Hu Hgap).
    unfold search_input. cbn [mounted store negb clock log].
    destruct (String.eqb_spec v (search (setLoadingNotes true st)))
      as [E|_]; [exfalso; apply Hv; exact E|].
    unfold search_effect, run, handleSearchChange, write, outcome_state.
    cbn [user setSearch setLoadingNotes]. rewrite Hu.
    rewrite (IH t (setSearch v (setLoadingNotes true st)) _ T Hu Hs HT).
    rewrite requests_app. cbn [requests search setSearch map].
    rewrite <- app_assoc. reflexivity.
Qed.

(** X21: changes of the term that come 300 ms or more apart, each to a
    different term, are not merged: once 300 ms have passed after the
    last one, one load has been made for each change, in order, each with
    the term of its change. *)
Theorem spaced_changes_load_each (rt : Runtime) (u : User) (t1 : nat)
  (v1 : string) (rest : list (nat * string)) (T : nat) :
  mounted rt = true ->
  user (store rt) = Some u ->
  clock rt <= t1 ->
  (forall tm, pending rt = Some tm -> t1 < deadline tm) ->
  v1 <> search (store rt) ->
  spaced t1 v1 rest ->
  fst (final t1 v1 rest) + 300 <= T ->
  loads (advance T (run_events (typing ((t1, v1) :: rest)) rt))
  = loads rt ++ map (fetch_query (uid u)) (v1 :: map snd rest).
Proof.
  intros Hm Hu Hc Hp Hv Hs HT.
  cbn [typing map run_events fst snd].
  rewrite (step_change rt u t1 v1 Hm Hu Hc Hp Hv).
  exact (spaced_run u rest t1 (setSearch v1 (store rt)) (log rt) T Hu Hs HT).
Qed.

Lemma spaced_changes_load_each_witness :
  loads (advance 800 (run_events (typing Sample.slow_typing) Sample.idle))
  = [fetch_query "alice" "g"; fetch_query "alice" "gr"].
Proof.
  apply (spaced_changes_load_each Sample.idle Sample.alice 10 "g"
           [(410, "gr")] 800 eq_refl eq_refl).
  - cbn. lia.
  - intros tm H. discriminate H.
  - cbn. discriminate.
  - cbn. unfold delay. repeat split; (lia || discriminate).
  - cbn. lia.
Defined.

Lemma step_unmounted (te : nat * Event) (rt : Runtime) :
  mounted rt = false -> pending rt = None ->
  mounted (step te rt) = false /\ pending (step te rt) = None /\
  log (step te rt) = log rt.
Proof.
  intros Hm Hp. unfold step, advance. rewrite Hp.
  destruct te as [t [v| |]]; cbn [fst snd apply_event];
    unfold search_input, unmount; cbn [mounted pending log];
    rewrite ?Hm; cbn; auto.
Qed.


Lemma step_signed_out (te : nat * Event) (rt : Runtime) :
  user (store rt) = None -> pending rt = None ->
  user (store (step te rt)) = None /\ pending (step te rt) = None /\
  log (step te rt) = log rt.
Proof.
  intros Hu Hp. unfold step, advance. rewrite Hp.
  destruct te as [t [v| |]]; cbn [fst snd apply_event];
    unfold search_input, unmount; cbn [mounted pending log store clock];
    auto.
  destruct (negb (mounted rt)); [cbn; auto|].
  destruct (String.eqb v (search (store rt))); [cbn; auto|].
  unfold search_effect, run, handleSearchChange, write, outcome_state.
  cbn [user setSearch store pending log]. rewrite Hu. auto.
Qed.

(** X23: while nobody is signed in, changes of the search term schedule
    nothing: no sequence of changes, waits and teardown makes a load. *)
Theorem signed_out_search_never_loads (events : list (nat * Event))
  (rt : Runtime) :
  user (store rt) = None ->
  pending rt = None ->
  loads (run_events events rt) = loads rt /\
  pending (run_events events rt) = None.
Proof.
  revert rt. induction events as [|te events IH]; intros rt Hu Hp; simpl;
    [auto|].
  destruct (step_signed_out te rt Hu Hp) as (Hu' & Hp' & Hl).
  destruct (IH (step te rt) Hu' Hp') as [IHl IHp].
  unfold loads in *. rewrite IHl, Hl. auto.
Qed.

Lemma signed_out_search_never_loads_witness :
  loads (run_events (typing Sample.keystrokes ++ [(900, Wait)])
                    Sample.signed_out)
  = [].
Proof.
  apply (signed_out_search_never_loads
           (typing Sample.keystrokes ++ [(900, Wait)]) Sample.signed_out);
    reflexivity.
Defined.

End PaceFacts.

(** ** What the update and delete requests do in the store *)

Module MutationFacts.
Import Store StoreFacts QueryFacts Mutation.

Lemma scoped_filters (nid : N) (owner : string) (n : Note) :
  matches [FEq ColId (VNum nid); FEq ColUserId (VText owner)] n = true
  <-> id n = nid /\ user_id n = owner.
Proof.
  cbn [matches forallb holds cell value_eqb].
  rewrite andb_true_r, andb_true_iff, N.eqb_eq, String.eqb_eq. reflexivity.
Qed.

Lemma filter_absorb (f g : Note -> bool) (l : list Note) :
  (forall n, f n = true -> g n = true) ->
  filter f (filter g l) = filter f l.
Proof.
  intros H. induction l as [|x l IH]; simpl; [reflexivity|].
  destruct (g x) eqn:Hg; simpl.
  - rewrite IH. reflexivity.
  - destruct (f x) eqn:Hf; [|exact IH].
    rewrite (H x Hf) in Hg. discriminate Hg.
Qed.

Lemma filter_map_untouched (f : Note -> bool) (g : Note -> Note)
  (l : list Note) :
  (forall n, g n = n \/ (f n = false /\ f (g n) = false)) ->
  filter f (map g l) = filter f l.
Proof.
  intros H. induction l as [|x l IH]; simpl; [reflexivity|].
  destruct (H x) as [E | [H1 H2]].
  - rewrite E, IH. reflexivity.
  - rewrite H1, H2. exact IH.
Qed.

(** X24: the delete request of [handleNoteDelete] removes the rows that
    have both the id of the note and the owner, and no other row. What a
    load of another user asks for is the same before and after, whatever
    its term; a load of the owner no longer gets a row with that id. *)
Theorem delete_request_scoped (nid : N) (owner : string) (tbl : list Note) :
  exists tbl',
    table_after (delete_request nid owner) tbl = Some tbl' /\
    (forall n, In n tbl' <->
               In n tbl /\ ~ (id n = nid /\ user_id n = owner)) /\
    (forall other term,
       other <> owner ->
       rows_of (fetch_query other term) tbl'
       = rows_of (fetch_query other term) tbl) /\
    (forall term n,
       In n (rows_of (fetch_query owner term) tbl') -> id n <> nid).
Proof.
  eexists. split; [reflexivity|].
  cbn [delete_request filters]. unfold delete_rows.
  assert (Hin : forall n,
             In n (filter (fun n0 => negb (matches
                      [FEq ColId (VNum nid); FEq ColUserId (VText owner)] n0))
                     tbl)
             <-> In n tbl /\ ~ (id n = nid /\ user_id n = owner)).
  { intros n. rewrite filter_In, negb_true_iff, <- scoped_filters.
    split; intros [H1 H2]; (split; [exact H1|]).
    - rewrite H2. discriminate.
    - destruct (matches _ n); [exfalso; apply H2; reflexivity | reflexivity]. }
  split; [exact Hin|]. split.
  - intros other term Ho. unfold rows_of. f_equal.
    apply filter_absorb. intros n Hm.
    apply owner_filter in Hm. apply negb_true_iff.
    destruct (matches _ n) eqn:E; [|reflexivity].
    apply scoped_filters in E as [_ E]. congruence.
  - intros term n Hn Hid.
    destruct (fetch_rows owner term
                (filter (fun n0 => negb (matches
                   [FEq ColId (VNum nid); FEq ColUserId (VText owner)] n0))
                   tbl)) as [_ Hp].
    apply (Permutation_in _ Hp) in Hn. apply filter_In in Hn as [Hi Ho].
    apply owner_filter in Ho.
    apply Hin in Hi as [_ Hi]. apply Hi. split; assumption.
Qed.

(** X25: the update request of [handleNoteSave] changes only rows that
    have both the id of the note and the owner: the table keeps its rows
    in place with their ids and owners, every other row is as before, and
    what a load of another user asks for is the same before and after. *)
Theorem update_request_scoped (now nid : N) (owner : string) (d : Draft)
  (tbl : list Note) :
  exists tbl',
    table_after (update_request now nid owner d) tbl = Some tbl' /\
    map id tbl' = map id tbl /\
    map user_id tbl' = map user_id tbl /\
    (forall n, In n tbl -> ~ (id n = nid /\ user_id n = owner) -> In n tbl') /\
    (forall other term,
       other <> owner ->
       rows_of (fetch_query other term) tbl'
       = rows_of (fetch_query other term) tbl).
Proof.
  eexists. split; [reflexivity|].
  cbn [update_request filters]. unfold update_rows.
  split; [|split; [|split]].
  - rewrite map_map. apply map_ext. intros n.
    destruct (matches _ n); reflexivity.
  - rewrite map_map. apply map_ext. intros n.
    destruct (matches _ n); reflexivity.
  - intros n Hin Hno. apply in_map_iff. exists n. split; [|exact Hin].
    destruct (matches _ n) eqn:E; [|reflexivity].
    apply scoped_filters in E. contradiction.
  - intros other term Ho. unfold rows_of. f_equal.
    apply filter_map_untouched. intros n.
    destruct (matches [FEq ColId (VNum nid); FEq ColUserId (VText owner)] n)
      eqn:E; [right | left; reflexivity].
    apply scoped_filters in E as [_ E].
    assert (Hf : forall m, user_id m = owner ->
                           matches (filters (fetch_query other term)) m = false).
    { intros m Hm. destruct (matches _ m) eqn:Em; [|reflexivity].
      apply owner_filter in Em. congruence. }
    split; apply Hf; [exact E | exact E].
Qed.

(** X26: after an accepted update whose date is later than every date in
    the table, the list the reload asks for (no search term) starts with
    the updated note: its id and owner, the title and content sent, the
    new date. *)
Theorem updated_note_comes_first (now nid : N) (owner : string) (d : Draft)
  (tbl : list Note) (n0 : Note) :
  In n0 tbl ->
  id n0 = nid ->
  user_id n0 = owner ->
  (forall n, In n tbl -> (updated_at n < now)%N) ->
  exists tbl',
    table_after (update_request now nid owner d) tbl = Some tbl' /\
    hd_error (rows_of (fetch_query owner "") tbl')
    = Some (mkNote nid owner (d_title d) (d_content d) now).
Proof.
  intros Hin0 Hid Hown Hold.
  eexists. split; [reflexivity|].
  cbn [update_request filters]. rewrite or_empty_id. unfold update_rows.
  set (g := fun n => if matches [FEq ColId (VNum nid);
                                 FEq ColUserId (VText owner)] n
                     then patched (mkPatch (d_title d) (d_content d) now) n
                     else n).
  set (new := mkNote nid owner (d_title d) (d_content d) now).
  assert (Hg : forall n, In n tbl ->
                         g n = new \/ (g n = n /\ (updated_at n < now)%N)).
  { intros n Hn. unfold g.
    destruct (matches _ n) eqn:E.
    - left. apply scoped_filters in E as [E1 E2].
      unfold patched, new. cbn. rewrite E1, E2. reflexivity.
    - right. split; [reflexivity | exact (Hold n Hn)]. }
  destruct (fetch_rows owner "" (map g tbl)) as [Hs Hp].
  assert (Hnew : In new (rows_of (fetch_query owner "") (map g tbl))).
  { apply (Permutation_in _ (Permutation_sym Hp)). apply filter_In. split.
    - apply in_map_iff. exists n0. split; [|exact Hin0].
      unfold g. replace (matches _ n0) with true.
      + unfold patched, new. cbn. rewrite Hid, Hown. reflexivity.
      + symmetry. apply scoped_filters. split; assumption.
    - cbn. rewrite String.eqb_refl. reflexivity. }
  destruct (rows_of (fetch_query owner "") (map g tbl)) as [|h r] eqn:Hr;
    [contradiction|].
  cbn [hd_error]. f_equal.
  assert (Hh : In h (map g tbl)).
  { assert (H : In h (h :: r)) by (left; reflexivity).
    apply (Permutation_in _ Hp) in H. apply filter_In in H as [H _]. exact H. }
  apply in_map_iff in Hh as (n & Hgn & Hn).
  destruct (Hg n Hn) as [E | [E Hlt]]; [congruence|].
  destruct Hnew as [E' | Hnr]; [exact E'|].
  exfalso. inversion Hs as [|? ? _ Hall]; subst.
  rewrite Forall_forall in Hall. specialize (Hall new Hnr).
  unfold newer_first in Hall. rewrite E in Hall. cbn in Hall. lia.
Qed.

Lemma updated_note_comes_first_witness :
  exists tbl',
    table_after
      (update_request 500 7 "alice" (mkDraft "Groceries (week 2)" "milk"))
      Sample.table = Some tbl' /\
    hd_error (rows_of (fetch_query "alice" "") tbl')
    = Some (mkNote 7 "alice" "Groceries (week 2)" "milk" 500).
Proof.
  apply (updated_note_comes_first 500 7 "alice"
           (mkDraft "Groceries (week 2)" "milk") Sample.table Sample.groceries).
  - simpl. auto.
  - reflexivity.
  - reflexivity.
  - intros n [<- | [<- | [<- | []]]]; reflexivity.
Defined.

End MutationFacts.
